(** * PolarsDataset: the polars dataset adapter of kedro-datasets

    A shallow embedding of
    [kedro-datasets/kedro_datasets/polars/polars_dataset.py].

    The adapter glues three libraries together: the pipeline framework
    (kedro), the filesystem layer (fsspec, pathlib) and the dataframe engine
    (polars, pyarrow).  None of them is part of the repository, so they are
    collected in one record of external operations, [Externals]; the adapter's
    own code is embedded over an arbitrary such record, in a state-and-error
    monad that also keeps the trace of the external calls made. *)

From Stdlib Require Import String Ascii List ZArith Bool.
From stdpp Require Import base option list gmap strings.

Local Open Scope string_scope.
Local Open Scope list_scope.

(** ** Python values, results, the monad *)

(** Values of option mappings ([Dict[str, Any]]). *)
#[local] Unset Elimination Schemes.
Inductive pyval :=
| PNone
| PBool (b : bool)
| PInt (n : Z)
| PStr (s : string)
| PList (items : list pyval)
| PDict (items : list (string * pyval)).
#[local] Set Elimination Schemes.

(** An option mapping: keyword arguments by name. *)
Abbreviation Args := (gmap string pyval).

Abbreviation bytes := (list Byte.byte).

(** [kedro.io.core.Version]: independent load and save selectors. *)
Record Version := { load : option string; save : option string }.

(** Exceptions: the framework's [DatasetError] (and its subclasses) on one
    side, every other Python exception, by class name, on the other. *)
Inductive exn :=
| DatasetError (msg : string)
| PyError (cls : string).

Inductive result (A : Type) :=
| Return (a : A)
| Raise (e : exn).
Arguments Return {A} a.
Arguments Raise {A} e.

(** State and exceptions: a computation runs from a state to a result and
    the state it leaves, also when it raises. *)
Definition M (S A : Type) : Type := S -> result A * S.

Definition ret {S A} (a : A) : M S A := fun s => (Return a, s).
Definition raise {S A} (e : exn) : M S A := fun s => (Raise e, s).
Definition bind {S A B} (m : M S A) (k : A -> M S B) : M S B :=
  fun s => match m s with
           | (Return a, s') => k a s'
           | (Raise e, s') => (Raise e, s')
           end.
Definition lift_result {S A} (r : result A) : M S A := fun s => (r, s).

(** [try: x = m / except DatasetError: return h], followed by the rest of
    the function, [k x]; any other exception goes on to the caller. *)
Definition try_except_DatasetError {S A B}
    (m : M S A) (h : M S B) (k : A -> M S B) : M S B :=
  fun s => match m s with
           | (Return a, s') => k a s'
           | (Raise (DatasetError _), s') => h s'
           | (Raise e, s') => (Raise e, s')
           end.

(** [io.BytesIO()]: a fresh, empty buffer. *)
Definition BytesIO : list Byte.byte := [].

Notation "x <- m ;; k" := (bind m (fun x => k))
  (at level 90, m at level 80, right associativity).
Notation "m ;;; k" := (bind m (fun _ => k))
  (at level 90, right associativity).

(** ** Strings and dictionaries as Python has them *)

(** [str.lower], on ASCII strings. *)
Definition ascii_lower (c : ascii) : ascii :=
  let n := nat_of_ascii c in
  if (65 <=? n)%nat && (n <=? 90)%nat then ascii_of_nat (n + 32) else c.

Fixpoint lower (s : string) : string :=
  match s with
  | EmptyString => EmptyString
  | String c rest => String (ascii_lower c) (lower rest)
  end.

(** [x in l] for a list of strings. *)
Definition py_in (x : string) (l : list string) : bool :=
  existsb (String.eqb x) l.

(** [key in d]. *)
Definition has_key (k : string) (d : Args) : bool :=
  match d !! k with Some _ => true | None => false end.

(** [d.update(other)]: the entries of [other] win. *)
Definition update (d other : Args) : Args := other ∪ d.

(** [d.setdefault(key, value)]. *)
Definition setdefault (k : string) (v : pyval) (d : Args) : Args :=
  match d !! k with Some _ => d | None => <[k := v]> d end.

(** [d.pop(key, None)], for the mapping it leaves. *)
Definition pop (k : string) (d : Args) : Args := delete k d.

(** [deepcopy(x) or {}]. *)
Definition or_empty (d : option Args) : Args := default ∅ d.

(** ** Module constants of the source *)

Definition ACCEPTED_FILE_FORMATS : list string := ["csv"; "parquet"].

Definition DEFAULT_LOAD_ARGS : Args := ∅.
Definition DEFAULT_SAVE_ARGS : Args := ∅.

(** [self.__class__.__name__]. *)
Definition class_name : string := "PolarsDataset".

(** The messages of the dataset errors the adapter raises.  In the first one
    only the first literal is an f-string, so the accepted formats are not
    interpolated. *)
Definition format_error (file_format : string) : string :=
  "'" +:+ file_format +:+ "' is not an accepted format "
  +:+ "({ACCEPTED_FILE_FORMATS}) ensure that your "
  +:+ "'file_format' parameter has been defined correctly as per the Polars"
  +:+ " Lazy API"
  +:+ " https://pola-rs.github.io/polars/py-polars/html/reference/io.html".

Definition directory_error : string :=
  "Saving " +:+ class_name +:+ " to a directory is not supported.".

Definition partition_cols_error : string :=
  class_name +:+ " does not support save argument "
  +:+ "'partition_cols'. Please use 'kedro.io.PartitionedDataset' instead.".

Definition write_method_error (file_format : string) : string :=
  "Unable to retrieve 'polars.DataFrame.write_" +:+ file_format +:+ "' "
  +:+ "method, please ensure that your 'file_format' parameter has been "
  +:+ "defined correctly as per the Polars API"
  +:+ "https://pola-rs.github.io/polars/py-polars/html/reference/dataframe/index.html".

Definition storage_options_warning : string :=
  "Dropping 'storage_options' for %s, "
  +:+ "please specify them under 'fs_args' or 'credentials'.".

(** ** The external collaborators

    What the adapter imports and calls, with the types its calls have.  The
    [World] is the state of the storage backends: the files and directories
    of the local disk and of the remote stores, and what the filesystem
    handles keep of them.  The framework's version cache is kept apart from
    it.  An operation that only reads the storage takes the world and
    returns a result; one that may change it returns the new world too.
    Path resolution reads the storage and may fill the version cache;
    [Path.is_dir] asks the local disk, takes no handle, and raises the
    [OSError]s it does not read as a plain no (a name too long, a
    permission denied). *)
Record Externals := {
  World : Type;
  VersionCache : Type;
  Fs : Type;            (* an fsspec filesystem handle *)
  FileObj : Type;       (* an open file of a handle *)
  DataFrame : Type;     (* pl.DataFrame *)
  LazyFrame : Type;     (* pl.LazyFrame *)
  PaDataset : Type;     (* pyarrow.dataset.Dataset *)

  (* kedro.io.core *)
  get_protocol_and_path : string -> option Version -> result (string * string);
  get_filepath_str : string -> string -> string;
  new_version_cache : VersionCache;
  get_load_path : string -> option Version -> Fs -> VersionCache -> World ->
                  result string * VersionCache;
  get_save_path : string -> option Version -> Fs -> VersionCache -> World ->
                  result string * VersionCache;
  super_release : VersionCache -> VersionCache;

  (* pathlib *)
  PurePosixPath : string -> string;
  path_is_dir : string -> World -> result bool;

  (* fsspec *)
  fsspec_filesystem : string -> Args -> World -> result Fs;
  fs_open : Fs -> string -> string -> World -> result FileObj * World;
  file_write : FileObj -> bytes -> World -> result unit * World;
  file_close : FileObj -> World -> result unit * World;
  fs_exists : Fs -> string -> World -> result bool;
  fs_invalidate_cache : Fs -> string -> World -> result unit * World;

  (* polars and pyarrow.dataset *)
  pl_attrs : list string;          (* the names the polars module exports *)
  DataFrame_attrs : list string;   (* the attributes of a DataFrame *)
  pl_scan : string -> string -> Args -> World -> result LazyFrame;
  ds_dataset : string -> Fs -> string -> World -> result PaDataset;
  pl_scan_pyarrow_dataset : PaDataset -> World -> result LazyFrame;
  collect : LazyFrame -> World -> result DataFrame;
  DataFrame_write : string -> DataFrame -> Args -> result bytes;
}.

(** The values of the dictionary [_describe] returns. *)
Inductive DescribeValue :=
| DvPath (path : string)
| DvStr (s : string)
| DvArgs (d : Args)
| DvVersion (v : option Version).

(** ** The adapter *)

Section Adapter.

Variable X : Externals.

(** The fields [__init__] sets on [self] (the base class's [_filepath] and
    [_version] included; its version cache is in the [Runtime]). *)
Record PolarsDataset := {
  _file_format : string;
  _protocol : string;
  _storage_options : Args;
  _fs : Fs X;
  metadata : option Args;
  _filepath : string;
  _version : option Version;
  _load_args : Args;
  _save_args : Args;
}.

(** The arguments of [__init__]; [None] is the default of the optional ones. *)
Record InitArgs := {
  filepath : string;
  file_format : string;
  load_args : option Args;
  save_args : option Args;
  version : option Version;
  credentials : option Args;
  fs_args : option Args;
  metadata_arg : option Args;
}.

(** [Union[pl.DataFrame, pl.LazyFrame]], told apart by [isinstance]. *)
Inductive PolarsFrame :=
| Lazy (lf : LazyFrame X)
| Eager (df : DataFrame X).

(** The calls the adapter makes to its collaborators, and its log records. *)
Inductive Event :=
| EvGetProtocolAndPath (filepath : string) (version : option Version)
| EvFilesystem (protocol : string) (kwargs : Args)
| EvSuperInit (filepath : string) (version : option Version)
| EvWarning (text : string) (arg : string)
| EvGetLoadPath
| EvGetSavePath
| EvIsDir (path : string)
| EvScan (routine : string) (path : string) (kwargs : Args)
| EvDataset (path : string) (fs : Fs X) (format : string)
| EvScanPyarrowDataset (dataset : PaDataset X)
| EvCollect (lf : LazyFrame X)
| EvWriteMethod (method : string) (df : DataFrame X) (kwargs : Args)
| EvOpen (fs : Fs X) (path : string) (mode : string)
| EvWrite (f : FileObj X) (data : bytes)
| EvClose (f : FileObj X)
| EvInvalidateCache (fs : Fs X) (path : string)
| EvExists (fs : Fs X) (path : string)
| EvSuperRelease.

(** What lives outside the adapter object. *)
Record Runtime := {
  world : World X;
  vcache : VersionCache X;
  trace : list Event;
}.

(** A method runs on the object and the runtime. *)
Record ObjState := {
  self : PolarsDataset;
  rt : Runtime;
}.

Definition set_world (w : World X) (r : Runtime) : Runtime :=
  {| world := w; vcache := vcache r; trace := trace r |}.
Definition set_vcache (c : VersionCache X) (r : Runtime) : Runtime :=
  {| world := world r; vcache := c; trace := trace r |}.
Definition log_event (ev : Event) (r : Runtime) : Runtime :=
  {| world := world r; vcache := vcache r; trace := trace r ++ [ev] |}.

(** *** Calls, over the runtime *)

(** A call that only inspects the world. *)
Definition inspect {A} (ev : Event) (f : World X -> result A) : M Runtime A :=
  fun r => (f (world r), log_event ev r).

(** A call that may change the world. *)
Definition perform {A} (ev : Event) (f : World X -> result A * World X)
  : M Runtime A :=
  fun r => let '(a, w) := f (world r) in (a, set_world w (log_event ev r)).

(** A call into the base class, which may use the version cache. *)
Definition resolve {A} (ev : Event)
    (f : VersionCache X -> World X -> result A * VersionCache X)
  : M Runtime A :=
  fun r => let '(a, c) := f (vcache r) (world r) in
           (a, set_vcache c (log_event ev r)).

(** A runtime computation inside a method. *)
Definition on_rt {A} (m : M Runtime A) : M ObjState A :=
  fun s => let '(a, r) := m (rt s) in (a, {| self := self s; rt := r |}).

Definition get_self : M ObjState PolarsDataset := fun s => (Return (self s), s).

(** [with enter as f: body]: the file is closed on the way out, whatever
    the body did; the file's [__exit__] does not swallow the exception. *)
Definition with_open {A} (enter : M ObjState (FileObj X))
    (body : FileObj X -> M ObjState A) : M ObjState A :=
  fun s =>
    match enter s with
    | (Raise e, s1) => (Raise e, s1)
    | (Return f, s1) =>
        let '(r, s2) := body f s1 in
        match on_rt (perform (EvClose f) (file_close X f)) s2 with
        | (Raise e, s3) => (Raise e, s3)
        | (Return _, s3) => (r, s3)
        end
    end.

(** [getattr(pl, name, None)] and [getattr(frame, name, None)]. *)
Definition getattr_pl (name : string)
  : option (string -> Args -> M ObjState (LazyFrame X)) :=
  if py_in name (pl_attrs X)
  then Some (fun path kwargs =>
               on_rt (inspect (EvScan name path kwargs) (pl_scan X name path kwargs)))
  else None.

Definition getattr_DataFrame (df : DataFrame X) (name : string)
  : option (Args -> M ObjState bytes) :=
  if py_in name (DataFrame_attrs X)
  then Some (fun kwargs =>
               on_rt (inspect (EvWriteMethod name df kwargs)
                        (fun _ => DataFrame_write X name df kwargs)))
  else None.

(** *** [__init__] *)

(** Lines 134-143: normalise the format and check it. *)
Definition check_file_format (file_format : string) : result string :=
  let _file_format := lower file_format in
  if negb (py_in _file_format ACCEPTED_FILE_FORMATS)
  then Raise (DatasetError (format_error _file_format))
  else Return _file_format.

Definition __init__ (a : InitArgs) : M Runtime PolarsDataset :=
  _file_format <- lift_result (check_file_format (file_format a)) ;;
  let _fs_args := or_empty (fs_args a) in
  let _credentials := or_empty (credentials a) in
  pp <- (fun r => (get_protocol_and_path X (filepath a) (version a),
                   log_event (EvGetProtocolAndPath (filepath a) (version a)) r)) ;;
  let '(protocol, path) := pp in
  let _fs_args :=
    if String.eqb protocol "file"
    then setdefault "auto_mkdir" (PBool true) _fs_args else _fs_args in
  let _storage_options := update _credentials _fs_args in
  _fs <- inspect (EvFilesystem protocol _storage_options)
           (fsspec_filesystem X protocol _storage_options) ;;
  (* super().__init__(filepath=PurePosixPath(path), version=version, ...) *)
  let _filepath := PurePosixPath X path in
  (fun r => (Return tt, set_vcache (new_version_cache X)
                          (log_event (EvSuperInit _filepath (version a)) r))) ;;;
  (* Handle default load and save arguments *)
  let _load_args :=
    match load_args a with
    | Some supplied => update DEFAULT_LOAD_ARGS supplied
    | None => DEFAULT_LOAD_ARGS
    end in
  let _save_args :=
    match save_args a with
    | Some supplied => update DEFAULT_SAVE_ARGS supplied
    | None => DEFAULT_SAVE_ARGS
    end in
  let mk la sa :=
    {| _file_format := _file_format; _protocol := protocol;
       _storage_options := _storage_options; _fs := _fs;
       metadata := metadata_arg a; _filepath := _filepath;
       _version := version a; _load_args := la; _save_args := sa |} in
  if has_key "storage_options" _save_args || has_key "storage_options" _load_args
  then
    (fun r => (Return tt, log_event (EvWarning storage_options_warning _filepath) r)) ;;;
    ret (mk (pop "storage_options" _load_args) (pop "storage_options" _save_args))
  else ret (mk _load_args _save_args).

(** *** The base class's path resolution, called on [self] *)

Definition _get_load_path : M ObjState string :=
  s <- get_self ;;
  on_rt (resolve EvGetLoadPath
           (get_load_path X (_filepath s) (_version s) (_fs s))).

Definition _get_save_path : M ObjState string :=
  s <- get_self ;;
  on_rt (resolve EvGetSavePath
           (get_save_path X (_filepath s) (_version s) (_fs s))).

(** *** [_invalidate_cache] *)

Definition _invalidate_cache : M ObjState unit :=
  s <- get_self ;;
  let filepath := get_filepath_str X (_filepath s) (_protocol s) in
  on_rt (perform (EvInvalidateCache (_fs s) filepath)
           (fs_invalidate_cache X (_fs s) filepath)).

(** *** [_load] *)

Definition _load : M ObjState (LazyFrame X) :=
  s <- get_self ;;
  load_path <- _get_load_path ;;
  if String.eqb (_protocol s) "file"
  then
    (* With local filesystems, we can use Polar's build-in I/O method *)
    match getattr_pl ("scan_" +:+ _file_format s) with
    | Some load_method => load_method load_path (_load_args s)
    | None => raise (PyError "TypeError")   (* calling [None] *)
    end
  else
    (* For object storage, we use pyarrow for I/O *)
    on_rt (inspect (EvFilesystem "s3" ∅) (fsspec_filesystem X "s3" ∅)) ;;;
    dataset <- on_rt (inspect (EvDataset load_path (_fs s) (_file_format s))
                        (ds_dataset X load_path (_fs s) (_file_format s))) ;;
    on_rt (inspect (EvScanPyarrowDataset dataset)
             (pl_scan_pyarrow_dataset X dataset)).

(** *** [_save] *)

Definition _save (data : PolarsFrame) : M ObjState unit :=
  s <- get_self ;;
  p <- _get_save_path ;;
  let save_path := get_filepath_str X p (_protocol s) in
  is_dir <- on_rt (inspect (EvIsDir save_path) (path_is_dir X save_path)) ;;
  if is_dir : bool
  then raise (DatasetError directory_error)
  else
    if has_key "partition_cols" (_save_args s)
    then raise (DatasetError partition_cols_error)
    else
      let _ := BytesIO in
      collected_data <- match data with
                        | Lazy lf => on_rt (inspect (EvCollect lf) (collect X lf))
                        | Eager df => ret df
                        end ;;
      match getattr_DataFrame collected_data ("write_" +:+ _file_format s) with
      | Some save_method =>
          buf <- (_ <- ret BytesIO ;; save_method (_save_args s)) ;;
          with_open
            (on_rt (perform (EvOpen (_fs s) save_path "wb")
                      (fs_open X (_fs s) save_path "wb")))
            (fun fs_file =>
               on_rt (perform (EvWrite fs_file buf) (file_write X fs_file buf)) ;;;
               _invalidate_cache)
      | None => raise (DatasetError (write_method_error (_file_format s)))
      end.

(** *** [_exists] *)

Definition _exists : M ObjState bool :=
  s <- get_self ;;
  try_except_DatasetError
    (p <- _get_load_path ;; ret (get_filepath_str X p (_protocol s)))
    (ret false)
    (fun load_path =>
       on_rt (inspect (EvExists (_fs s) load_path)
                (fs_exists X (_fs s) load_path))).

(** *** [_release] *)

Definition _release : M ObjState unit :=
  (* super()._release() *)
  on_rt (resolve EvSuperRelease (fun c _ => (Return tt, super_release X c))) ;;;
  _invalidate_cache.

(** *** [_describe] *)

Definition _describe : M ObjState (list (string * DescribeValue)) :=
  s <- get_self ;;
  ret [("filepath", DvPath (_filepath s));
       ("protocol", DvStr (_protocol s));
       ("load_args", DvArgs (_load_args s));
       ("save_args", DvArgs (_save_args s));
       ("version", DvVersion (_version s))].

End Adapter.

Arguments Lazy {X} lf.
Arguments Eager {X} df.
Arguments EvGetProtocolAndPath {X}.
Arguments EvFilesystem {X}.
Arguments EvSuperInit {X}.
Arguments EvWarning {X}.
Arguments EvGetLoadPath {X}.
Arguments EvGetSavePath {X}.
Arguments EvIsDir {X}.
Arguments EvScan {X}.
Arguments EvDataset {X}.
Arguments EvScanPyarrowDataset {X}.
Arguments EvCollect {X}.
Arguments EvWriteMethod {X}.
Arguments EvOpen {X}.
Arguments EvWrite {X}.
Arguments EvClose {X}.
Arguments EvInvalidateCache {X}.
Arguments EvExists {X}.
Arguments EvSuperRelease {X}.
Arguments _file_format {X}.
Arguments _protocol {X}.
Arguments _storage_options {X}.
Arguments _fs {X}.
Arguments metadata {X}.
Arguments _filepath {X}.
Arguments _version {X}.
Arguments _load_args {X}.
Arguments _save_args {X}.
Arguments world {X}.
Arguments vcache {X}.
Arguments trace {X}.
Arguments self {X}.
Arguments rt {X}.

(** ** The module's [__getattr__]: the deprecated alias *)

Definition _DEPRECATED_CLASSES : list (string * string) :=
  [("PolarsDataSet", "PolarsDataset")].

(** The names the module binds: what it imports and what it defines.  A
    name used in a function body is looked up here, then among the
    builtins. *)
Definition module_globals : list string :=
  ["logging"; "deepcopy"; "BytesIO"; "Path"; "PurePosixPath"; "Any";
   "ClassVar"; "Dict"; "Optional"; "Union"; "fsspec"; "pl"; "ds";
   "AbstractVersionedDataSet"; "DatasetError"; "Version"; "get_filepath_str";
   "get_protocol_and_path"; "ACCEPTED_FILE_FORMATS"; "PolarsFrame"; "logger";
   "PolarsDataset"; "_DEPRECATED_CLASSES"; "__getattr__"].

(** Looking a global name up; [warnings] is no builtin either. *)
Definition global_name {S} (name : string) : M S unit :=
  if py_in name module_globals then ret tt else raise (PyError "NameError").

(** [d[name]] after [name in d]. *)
Fixpoint dict_get (name : string) (d : list (string * string)) : option string :=
  match d with
  | [] => None
  | (k, v) :: rest => if String.eqb name k then Some v else dict_get name rest
  end.

(** [repr] of a string without quotes or escapes in it. *)
Definition repr (s : string) : string := "'" +:+ s +:+ "'".

Definition deprecation_warning (name alias : string) : string :=
  repr name +:+ " has been renamed to " +:+ repr alias +:+ ", "
  +:+ "and the alias will be removed in Kedro-Datasets 2.0.0".

(** The state is the list of warnings issued; the result the name of the
    class returned. *)
Definition __getattr__ (name : string) : M (list string) string :=
  match dict_get name _DEPRECATED_CLASSES with
  | Some alias =>
      global_name "warnings" ;;;
      (fun issued => (Return tt, issued ++ [deprecation_warning name alias])) ;;;
      ret alias
  | None => raise (PyError "AttributeError")
  end.

(** ** A reference model of the collaborators

    In-memory storage backends, one per protocol, the framework's
    directory-per-version naming, and a dataframe engine over an arbitrary
    [Codec].  It is one inhabitant of [Externals]: the statements below that
    hold for every [Externals] hold for it, and the concrete runs of the
    adapter are made in it. *)

(** The encoders and decoders of the dataframe engine and of the columnar
    dataset layer, by format name. *)
Record Codec := {
  Frame : Type;
  encode : string -> Frame -> Args -> result bytes;     (* DataFrame.write_<format> *)
  decode : string -> bytes -> Args -> result Frame;     (* forcing pl.scan_<format> *)
  pa_decode : string -> bytes -> result Frame;          (* forcing a pyarrow dataset scan *)
}.

(** One storage backend, and what its handle has cached of it: for a path
    it was asked about, whether the path existed then. *)
Record Storage := {
  files : gmap string bytes;
  dirs : gset string;
  pending : gmap string bytes;   (* buffers of the files open for writing *)
  listings : gmap string bool;   (* the handle's cached answers, by path *)
}.

Definition empty_storage : Storage :=
  {| files := ∅; dirs := ∅; pending := ∅; listings := ∅ |}.

Record RefWorld := {
  stores : gmap string Storage;   (* by protocol; "file" is the local disk *)
  now : string;                   (* what generate_timestamp() returns *)
}.

Record RefFs := { fs_protocol : string; fs_kwargs : Args }.
Record RefFile := { fo_fs : RefFs; fo_path : string }.
Record RefDataset := { pa_path : string; pa_fs : RefFs; pa_format : string }.

Definition store_of (w : RefWorld) (protocol : string) : Storage :=
  default empty_storage (stores w !! protocol).

Definition set_store (protocol : string) (st : Storage) (w : RefWorld) : RefWorld :=
  {| stores := <[protocol := st]> (stores w); now := now w |}.

Definition HTTP_PROTOCOLS : list string := ["http"; "https"].
Definition PROTOCOL_DELIMITER : string := "://".

(** The framework's helper that derives protocol and bare path from the
    prefixed path string (no prefix: the local filesystem); it refuses a
    version on an HTTP(S) path. *)
Definition ref_get_protocol_and_path (filepath : string) (version : option Version)
  : result (string * string) :=
  match String.index 0 PROTOCOL_DELIMITER filepath with
  | None => Return ("file", filepath)
  | Some n =>
      let protocol := substring 0 n filepath in
      let path := substring (n + 3) (String.length filepath - (n + 3)) filepath in
      if py_in protocol HTTP_PROTOCOLS
      then match version with
           | Some _ => Raise (DatasetError "HTTP(s) DataSet doesn't support versioning.")
           | None => Return (protocol, path)
           end
      else Return (protocol, path)
  end.

(** The framework's [get_filepath_str]: the protocol is put back in front of
    HTTP(S) paths only. *)
Definition ref_get_filepath_str (path protocol : string) : string :=
  if py_in protocol HTTP_PROTOCOLS
  then protocol +:+ PROTOCOL_DELIMITER +:+ path
  else path.

(** [PurePath(path).name]: what follows the last slash. *)
Fixpoint basename_from (acc s : string) : string :=
  match s with
  | EmptyString => acc
  | String c rest =>
      if Ascii.eqb c "/" then basename_from rest rest
      else basename_from acc rest
  end.
Definition basename (s : string) : string := basename_from s s.

(** The framework's directory-per-version naming:
    [filepath / version / filepath.name]. *)
Definition versioned_path (filepath version : string) : string :=
  filepath +:+ "/" +:+ version +:+ "/" +:+ basename filepath.

Definition is_file (st : Storage) (path : string) : bool :=
  match files st !! path with Some _ => true | None => false end.

Definition is_dir (st : Storage) (path : string) : bool :=
  bool_decide (path ∈ dirs st).

Definition storage_exists (st : Storage) (path : string) : bool :=
  is_file st path || is_dir st path.

(** What the handle answers: from its cache where it has an entry for the
    path, from the storage where it has none. *)
Definition handle_exists (st : Storage) (path : string) : bool :=
  default (storage_exists st path) (listings st !! path).

(** [q] is the path [base] or lies under it. *)
Definition at_or_under (base q : string) : bool :=
  String.eqb q base || String.prefix (base +:+ "/") q.

(** The version a stored file belongs to: the middle of
    [filepath/<version>/<name>], when the key has that shape. *)
Definition version_of_key (filepath key : string) : option string :=
  let pre := filepath +:+ "/" in
  let suf := "/" +:+ basename filepath in
  if String.prefix pre key
  then
    let rest := substring (String.length pre)
                  (String.length key - String.length pre) key in
    let mid := substring 0 (String.length rest - String.length suf) rest in
    if String.eqb rest (mid +:+ suf)
    then match String.index 0 "/" mid with
         | None => Some mid
         | Some _ => None
         end
    else None
  else None.

(** The greatest of a list of version names: timestamps sort as strings. *)
Definition latest (versions : list string) : option string :=
  fold_right (fun v acc =>
                match acc with
                | None => Some v
                | Some m => if String.ltb m v then Some v else Some m
                end) None versions.

Definition stored_versions (st : Storage) (filepath : string) : list string :=
  omap (fun kv => version_of_key filepath kv.1) (map_to_list (files st)).

(** The framework's load-path resolution: the file itself without a version
    descriptor, else the given load version or the latest available one,
    cached until release; with no version to be found the framework's
    dataset error is raised. *)
Definition ref_get_load_path (filepath : string) (version : option Version)
    (fs : RefFs) (vc : option string * option string) (w : RefWorld)
  : result string * (option string * option string) :=
  match version with
  | None => (Return filepath, vc)
  | Some v =>
      let found :=
        match vc.1 with
        | Some cached => Some cached
        | None =>
            match load v with
            | Some given => Some given
            | None => latest (stored_versions (store_of w (fs_protocol fs)) filepath)
            end
        end in
      match found with
      | Some load_version => (Return (versioned_path filepath load_version),
                              (Some load_version, vc.2))
      | None => (Raise (DatasetError ("Did not find any versions for " +:+ filepath)), vc)
      end
  end.

(** The framework's save-path resolution: the file itself without a version
    descriptor, else the path of the given save version or of a generated
    one, which must not exist yet (the adapter hands the framework its
    handle's [exists] for this test). *)
Definition ref_get_save_path (filepath : string) (version : option Version)
    (fs : RefFs) (vc : option string * option string) (w : RefWorld)
  : result string * (option string * option string) :=
  match version with
  | None => (Return filepath, vc)
  | Some v =>
      let save_version :=
        match vc.2 with
        | Some cached => cached
        | None => default (now w) (save v)
        end in
      let path := versioned_path filepath save_version in
      if handle_exists (store_of w (fs_protocol fs)) path
      then (Raise (DatasetError ("Save path '" +:+ path
                                 +:+ "' must not exist if versioning is enabled.")),
            (vc.1, Some save_version))
      else (Return path, (vc.1, Some save_version))
  end.

(** The protocols a filesystem handle can be made for. *)
Definition known_protocols : list string :=
  ["file"; "s3"; "gcs"; "abfs"; "hdfs"; "sftp"; "http"; "https"; "memory"].

Definition ref_fsspec_filesystem (protocol : string) (kwargs : Args) (w : RefWorld)
  : result RefFs :=
  if py_in protocol known_protocols
  then Return {| fs_protocol := protocol; fs_kwargs := kwargs |}
  else Raise (PyError "ValueError").

(** Opening for writing starts an empty buffer; a directory cannot be
    opened, and HTTP(S) handles are read-only. *)
Definition ref_fs_open (fs : RefFs) (path mode : string) (w : RefWorld)
  : result RefFile * RefWorld :=
  let st := store_of w (fs_protocol fs) in
  if py_in (fs_protocol fs) HTTP_PROTOCOLS then (Raise (PyError "NotImplementedError"), w)
  else if is_dir st path then (Raise (PyError "IsADirectoryError"), w)
  else (Return {| fo_fs := fs; fo_path := path |},
        set_store (fs_protocol fs)
          {| files := files st; dirs := dirs st;
             pending := <[path := []]> (pending st); listings := listings st |} w).

Definition ref_file_write (f : RefFile) (data : bytes) (w : RefWorld)
  : result unit * RefWorld :=
  let st := store_of w (fs_protocol (fo_fs f)) in
  match pending st !! fo_path f with
  | None => (Raise (PyError "ValueError"), w)   (* I/O operation on closed file *)
  | Some buf =>
      (Return tt,
       set_store (fs_protocol (fo_fs f))
         {| files := files st; dirs := dirs st;
            pending := <[fo_path f := (buf ++ data)%list]> (pending st);
            listings := listings st |} w)
  end.

(** Closing commits the buffer as the file's content. *)
Definition ref_file_close (f : RefFile) (w : RefWorld) : result unit * RefWorld :=
  let st := store_of w (fs_protocol (fo_fs f)) in
  match pending st !! fo_path f with
  | None => (Return tt, w)
  | Some buf =>
      (Return tt,
       set_store (fs_protocol (fo_fs f))
         {| files := <[fo_path f := buf]> (files st); dirs := dirs st;
            pending := delete (fo_path f) (pending st);
            listings := listings st |} w)
  end.

Definition ref_fs_exists (fs : RefFs) (path : string) (w : RefWorld) : result bool :=
  Return (handle_exists (store_of w (fs_protocol fs)) path).

(** fsspec's [invalidate_cache(path)], as its interface documents it: the
    cached listings at or under the given path are discarded. *)
Definition ref_fs_invalidate_cache (fs : RefFs) (path : string) (w : RefWorld)
  : result unit * RefWorld :=
  let st := store_of w (fs_protocol fs) in
  (Return tt,
   set_store (fs_protocol fs)
     {| files := files st; dirs := dirs st; pending := pending st;
        listings := filter (fun kv => at_or_under path kv.1 = false)
                      (listings st) |} w).

(** [Path(p).is_dir()] asks the local disk, whatever the protocol. *)
Definition ref_path_is_dir (path : string) (w : RefWorld) : result bool :=
  Return (is_dir (store_of w "file") path).

Section Reference.

Variable C : Codec.

(** A lazy frame is a description of what to read, or a frame made lazy;
    nothing is read before it is collected. *)
Inductive RefLazy :=
| LScan (routine path : string) (kwargs : Args)
| LPyarrow (d : RefDataset)
| LFrame (df : Frame C).

(** The [<format>] of [scan_<format>] and of [write_<format>]. *)
Definition scan_format (routine : string) : string :=
  substring 5 (String.length routine - 5) routine.
Definition write_format (method : string) : string :=
  substring 6 (String.length method - 6) method.

(** The lazy-scan routines of the polars module and the write methods of a
    DataFrame, as the API reference the source points to lists them. *)
Definition ref_pl_attrs : list string :=
  ["scan_csv"; "scan_ipc"; "scan_parquet"; "scan_ndjson"; "scan_delta";
   "scan_pyarrow_dataset"].
Definition ref_DataFrame_attrs : list string :=
  ["write_csv"; "write_parquet"; "write_json"; "write_ndjson"; "write_ipc";
   "write_avro"; "write_excel"; "write_database"; "write_delta"].

Definition ref_pl_scan (routine path : string) (kwargs : Args) (w : RefWorld)
  : result RefLazy :=
  Return (LScan routine path kwargs).

(** The dataset view finds its files, through the handle, when it is
    made. *)
Definition ref_ds_dataset (path : string) (fs : RefFs) (format : string)
    (w : RefWorld) : result RefDataset :=
  if handle_exists (store_of w (fs_protocol fs)) path
  then Return {| pa_path := path; pa_fs := fs; pa_format := format |}
  else Raise (PyError "FileNotFoundError").

Definition ref_pl_scan_pyarrow_dataset (d : RefDataset) (w : RefWorld)
  : result RefLazy :=
  Return (LPyarrow d).

(** Forcing a lazy frame reads the file as it is then: a native scan from
    the local disk, a dataset scan through the dataset's handle. *)
Definition ref_collect (lf : RefLazy) (w : RefWorld) : result (Frame C) :=
  match lf with
  | LScan routine path kwargs =>
      match files (store_of w "file") !! path with
      | Some content => decode C (scan_format routine) content kwargs
      | None => Raise (PyError "FileNotFoundError")
      end
  | LPyarrow d =>
      match files (store_of w (fs_protocol (pa_fs d))) !! pa_path d with
      | Some content => pa_decode C (pa_format d) content
      | None => Raise (PyError "FileNotFoundError")
      end
  | LFrame df => Return df
  end.

Definition ref_DataFrame_write (method : string) (df : Frame C) (kwargs : Args)
  : result bytes :=
  encode C (write_format method) df kwargs.

Definition ref : Externals := {|
  World := RefWorld;
  VersionCache := option string * option string;
  Fs := RefFs;
  FileObj := RefFile;
  DataFrame := Frame C;
  LazyFrame := RefLazy;
  PaDataset := RefDataset;
  get_protocol_and_path := ref_get_protocol_and_path;
  get_filepath_str := ref_get_filepath_str;
  new_version_cache := (None, None);
  get_load_path := ref_get_load_path;
  get_save_path := ref_get_save_path;
  super_release := fun _ => (None, None);
  PurePosixPath := fun path => path;
  path_is_dir := ref_path_is_dir;
  fsspec_filesystem := ref_fsspec_filesystem;
  fs_open := ref_fs_open;
  file_write := ref_file_write;
  file_close := ref_file_close;
  fs_exists := ref_fs_exists;
  fs_invalidate_cache := ref_fs_invalidate_cache;
  pl_attrs := ref_pl_attrs;
  DataFrame_attrs := ref_DataFrame_attrs;
  pl_scan := ref_pl_scan;
  ds_dataset := ref_ds_dataset;
  pl_scan_pyarrow_dataset := ref_pl_scan_pyarrow_dataset;
  collect := ref_collect;
  DataFrame_write := ref_DataFrame_write;
|}.

End Reference.

(** A small codec for the concrete runs: a frame is one column of bytes, its
    encoding the column behind a byte that names the format. *)
Definition magic (format : string) : option Byte.byte :=
  if String.eqb format "csv" then Some Byte.x63
  else if String.eqb format "parquet" then Some Byte.x50
  else None.

Definition tag_encode (format : string) (df : bytes) (kwargs : Args) : result bytes :=
  match magic format with
  | Some m => Return (m :: df)
  | None => Raise (PyError "ValueError")
  end.

Definition tag_decode (format : string) (content : bytes) : result bytes :=
  match magic format, content with
  | Some m, b :: df => if Byte.eqb m b then Return df else Raise (PyError "ComputeError")
  | _, _ => Raise (PyError "ComputeError")
  end.

Definition tag_codec : Codec := {|
  Frame := bytes;
  encode := tag_encode;
  decode := fun format content _ => tag_decode format content;
  pa_decode := tag_decode;
|}.

(** The runtime a program starts in: nothing stored, nothing logged. *)
Definition empty_world : RefWorld := {| stores := ∅; now := "2026-01-01T00.00.00.000Z" |}.

Definition start (C : Codec) (w : RefWorld) : Runtime (ref C) :=
  {| world := w : World (ref C); vcache := (None, None) : VersionCache (ref C);
     trace := [] |}.

Definition init_args (filepath file_format : string) : InitArgs :=
  {| filepath := filepath; file_format := file_format; load_args := None;
     save_args := None; version := None; credentials := None; fs_args := None;
     metadata_arg := None |}.

(** The adapter a construction in the reference model leaves, without
    credentials or filesystem arguments. *)
Definition adapter (C : Codec) (protocol path file_format : string)
    (version : option Version) (la sa : Args) : PolarsDataset (ref C) :=
  let opts : Args :=
    if String.eqb protocol "file" then {["auto_mkdir" := PBool true]} else ∅ in
  {| _file_format := file_format; _protocol := protocol;
     _storage_options := opts;
     _fs := {| fs_protocol := protocol; fs_kwargs := opts |} : Fs (ref C);
     metadata := None; _filepath := path; _version := version;
     _load_args := la; _save_args := sa |}.

(** An adapter in a world, before any call. *)
Definition state_of (C : Codec) (ds : PolarsDataset (ref C)) (w : RefWorld)
  : ObjState (ref C) :=
  {| self := ds; rt := start C w |}.


(** A world with a file on the local disk and one in an object store. *)
Definition stocked_world : RefWorld :=
  {| stores :=
       {["file" := {| files := {["test.csv" := [Byte.x63; Byte.x01; Byte.x02]]};
                      dirs := ∅; pending := ∅; listings := ∅ |};
         "s3" := {| files := {["bucket/test.parquet" := [Byte.x50; Byte.x01]]};
                    dirs := ∅; pending := ∅; listings := ∅ |}]};
     now := "2026-01-01T00.00.00.000Z" |}.

(** Construction arguments with [storage_options] among the load options. *)
Definition init_args_with_storage_options : InitArgs :=
  {| filepath := "test.csv"; file_format := "csv";
     load_args := Some {["storage_options" := PDict []; "sep" := PStr ","]};
     save_args := None; version := None; credentials := None; fs_args := None;
     metadata_arg := None |}.

(** An object store in which [bucket/out] is a directory; the local disk
    is empty. *)
Definition world_with_remote_dir : RefWorld :=
  {| stores := {["s3" := {| files := ∅; dirs := {["bucket/out"]}; pending := ∅;
                            listings := ∅ |}]};
     now := "2026-01-01T00.00.00.000Z" |}.

(** Construction arguments with credentials that set [auto_mkdir]. *)
Definition init_args_with_credentials : InitArgs :=
  {| filepath := "test.csv"; file_format := "csv"; load_args := None;
     save_args := None; version := None;
     credentials := Some {["auto_mkdir" := PBool false; "token" := PStr "t"]};
     fs_args := None; metadata_arg := None |}.

(** The adapter a construction in the reference model leaves, with the
    storage options given. *)
Definition adapter_with (C : Codec) (opts : Args) (protocol path file_format : string)
    (version : option Version) (la sa : Args) : PolarsDataset (ref C) :=
  {| _file_format := file_format; _protocol := protocol;
     _storage_options := opts;
     _fs := {| fs_protocol := protocol; fs_kwargs := opts |} : Fs (ref C);
     metadata := None; _filepath := path; _version := version;
     _load_args := la; _save_args := sa |}.

(** The same collaborators, but every write to an open file raises. *)
Definition failing_write (X : Externals) : Externals := {|
  World := World X;
  VersionCache := VersionCache X;
  Fs := Fs X;
  FileObj := FileObj X;
  DataFrame := DataFrame X;
  LazyFrame := LazyFrame X;
  PaDataset := PaDataset X;
  get_protocol_and_path := get_protocol_and_path X;
  get_filepath_str := get_filepath_str X;
  new_version_cache := new_version_cache X;
  get_load_path := get_load_path X;
  get_save_path := get_save_path X;
  super_release := super_release X;
  PurePosixPath := PurePosixPath X;
  path_is_dir := path_is_dir X;
  fsspec_filesystem := fsspec_filesystem X;
  fs_open := fs_open X;
  file_write := fun _ _ w => (Raise (PyError "OSError"), w);
  file_close := file_close X;
  fs_exists := fs_exists X;
  fs_invalidate_cache := fs_invalidate_cache X;
  pl_attrs := pl_attrs X;
  DataFrame_attrs := DataFrame_attrs X;
  pl_scan := pl_scan X;
  ds_dataset := ds_dataset X;
  pl_scan_pyarrow_dataset := pl_scan_pyarrow_dataset X;
  collect := collect X;
  DataFrame_write := DataFrame_write X;
|}.

Definition full_disk : Externals := failing_write (ref tag_codec).

(** An adapter for [test.csv] on the disk that cannot be written. *)
Definition full_disk_state : ObjState full_disk :=
  {| self := {| _file_format := "csv"; _protocol := "file";
                _storage_options := ∅;
                _fs := {| fs_protocol := "file"; fs_kwargs := ∅ |} : Fs full_disk;
                metadata := None; _filepath := "test.csv"; _version := None;
                _load_args := ∅; _save_args := ∅ |};
     rt := {| world := empty_world : World full_disk;
              vcache := (None, None) : VersionCache full_disk;
              trace := [] |} |}.

(** The length a file name may have on the local disk. *)
Definition NAME_MAX : nat := 255.

(** The same collaborators on a disk that refuses longer names: for such a
    path the [stat] call under [Path.is_dir] fails with [ENAMETOOLONG],
    which pathlib raises as [OSError]. *)
Definition name_max (X : Externals) : Externals := {|
  World := World X;
  VersionCache := VersionCache X;
  Fs := Fs X;
  FileObj := FileObj X;
  DataFrame := DataFrame X;
  LazyFrame := LazyFrame X;
  PaDataset := PaDataset X;
  get_protocol_and_path := get_protocol_and_path X;
  get_filepath_str := get_filepath_str X;
  new_version_cache := new_version_cache X;
  get_load_path := get_load_path X;
  get_save_path := get_save_path X;
  super_release := super_release X;
  PurePosixPath := PurePosixPath X;
  path_is_dir := fun path w =>
    if (NAME_MAX <? String.length (basename path))%nat
    then Raise (PyError "OSError")
    else path_is_dir X path w;
  fsspec_filesystem := fsspec_filesystem X;
  fs_open := fs_open X;
  file_write := file_write X;
  file_close := file_close X;
  fs_exists := fs_exists X;
  fs_invalidate_cache := fs_invalidate_cache X;
  pl_attrs := pl_attrs X;
  DataFrame_attrs := DataFrame_attrs X;
  pl_scan := pl_scan X;
  ds_dataset := ds_dataset X;
  pl_scan_pyarrow_dataset := pl_scan_pyarrow_dataset X;
  collect := collect X;
  DataFrame_write := DataFrame_write X;
|}.

Definition short_names : Externals := name_max (ref tag_codec).

(** A file name of 300 letters. *)
Definition long_name : string := string_of_list_ascii (replicate 300 "a"%char).

(** An adapter for a file of that name, with [partition_cols] among its
    save options. *)
Definition long_name_state : ObjState short_names :=
  {| self := {| _file_format := "csv"; _protocol := "file";
                _storage_options := ∅;
                _fs := {| fs_protocol := "file"; fs_kwargs := ∅ |} : Fs short_names;
                metadata := None; _filepath := long_name; _version := None;
                _load_args := ∅;
                _save_args := {["partition_cols" := PList [PStr "a"]]} |};
     rt := {| world := empty_world : World short_names;
              vcache := (None, None) : VersionCache short_names;
              trace := [] |} |}.

(** The same collaborators, but a handle whose [invalidate_cache] does
    nothing. *)
Definition keeps_cache (X : Externals) : Externals := {|
  World := World X;
  VersionCache := VersionCache X;
  Fs := Fs X;
  FileObj := FileObj X;
  DataFrame := DataFrame X;
  LazyFrame := LazyFrame X;
  PaDataset := PaDataset X;
  get_protocol_and_path := get_protocol_and_path X;
  get_filepath_str := get_filepath_str X;
  new_version_cache := new_version_cache X;
  get_load_path := get_load_path X;
  get_save_path := get_save_path X;
  super_release := super_release X;
  PurePosixPath := PurePosixPath X;
  path_is_dir := path_is_dir X;
  fsspec_filesystem := fsspec_filesystem X;
  fs_open := fs_open X;
  file_write := file_write X;
  file_close := file_close X;
  fs_exists := fs_exists X;
  fs_invalidate_cache := fun _ _ w => (Return tt, w);
  pl_attrs := pl_attrs X;
  DataFrame_attrs := DataFrame_attrs X;
  pl_scan := pl_scan X;
  ds_dataset := ds_dataset X;
  pl_scan_pyarrow_dataset := pl_scan_pyarrow_dataset X;
  collect := collect X;
  DataFrame_write := DataFrame_write X;
|}.

(** An object store whose handle was asked about a path before anything was
    stored there, and has cached that it does not exist. *)
Definition cached_version : string :=
  "bucket/cars.parquet/2026-01-01T00.00.00.000Z/cars.parquet".

Definition world_with_cached_absence : RefWorld :=
  {| stores := {["s3" := {| files := ∅; dirs := ∅; pending := ∅;
                            listings := {[cached_version := false]} |}]};
     now := "2026-01-01T00.00.00.000Z" |}.

Definition forgetful : Externals := keeps_cache (ref tag_codec).

(** A versioned adapter over that store, its handle one that keeps its
    cache. *)
Definition cached_absence_state : ObjState forgetful :=
  {| self := {| _file_format := "parquet"; _protocol := "s3";
                _storage_options := ∅;
                _fs := {| fs_protocol := "s3"; fs_kwargs := ∅ |} : Fs forgetful;
                metadata := None; _filepath := "bucket/cars.parquet";
                _version := Some {| load := None; save := None |};
                _load_args := ∅; _save_args := ∅ |};
     rt := {| world := world_with_cached_absence : World forgetful;
              vcache := (None, None) : VersionCache forgetful;
              trace := [] |} |}.

(** Construction arguments of an adapter with a version descriptor. *)
Definition versioned_init_args (filepath file_format : string) (v : Version)
  : InitArgs :=
  {| filepath := filepath; file_format := file_format; load_args := None;
     save_args := None; version := Some v; credentials := None; fs_args := None;
     metadata_arg := None |}.

(** A two-row frame of the small codec. *)
Definition two_rows : DataFrame (ref tag_codec) := [Byte.x01; Byte.x02].

(** What the engine makes of a frame written in [format] with the save
    options and read back: by the native scan with the load options on the
    local protocol, by the dataset scan, which takes none, on any other. *)
Definition reads_back (C : Codec) (protocol format : string) (sargs largs : Args)
    (df df' : Frame C) : Prop :=
  ∃ content,
    encode C format df sargs = Return content
    ∧ (if String.eqb protocol "file"
       then decode C format content largs
       else pa_decode C format content) = Return df'.

(** ** Sequences of operations, and what the trace shows *)

Section Operations.

Variable X : Externals.

(** The operations a caller performs on a constructed adapter. *)
Inductive Op :=
| OpLoad
| OpSave (data : PolarsFrame X)
| OpExists
| OpRelease.

(** The state an operation leaves, whether it returned or raised. *)
Definition run_op (op : Op) (s : ObjState X) : ObjState X :=
  match op with
  | OpLoad => (_load X s).2
  | OpSave data => (_save X data s).2
  | OpExists => (_exists X s).2
  | OpRelease => (_release X s).2
  end.

Definition run_ops (ops : list Op) (s : ObjState X) : ObjState X :=
  fold_left (fun s op => run_op op s) ops s.

(** Serialising, opening and writing: the events of a write. *)
Definition is_write_event (ev : Event X) : bool :=
  match ev with
  | EvWriteMethod _ _ _ | EvOpen _ _ _ | EvWrite _ _ => true
  | _ => false
  end.

(** The keyword arguments an event hands to the dataframe engine. *)
Definition engine_kwargs (ev : Event X) : option Args :=
  match ev with
  | EvScan _ _ kwargs | EvWriteMethod _ _ kwargs => Some kwargs
  | _ => None
  end.

Definition invalidates_path (path : string) (ev : Event X) : bool :=
  match ev with
  | EvInvalidateCache _ p => String.eqb p path
  | _ => false
  end.

(** The object with other load options, all else equal. *)
Definition with_load_args (la : Args) (s : ObjState X) : ObjState X :=
  {| self := {| _file_format := _file_format (self s);
                _protocol := _protocol (self s);
                _storage_options := _storage_options (self s);
                _fs := _fs (self s);
                metadata := metadata (self s);
                _filepath := _filepath (self s);
                _version := _version (self s);
                _load_args := la;
                _save_args := _save_args (self s) |};
     rt := rt s |}.

(** The options as [__init__] merges them onto the (empty) defaults. *)
Definition merged_load_args (a : InitArgs) : Args := or_empty (load_args a).
Definition merged_save_args (a : InitArgs) : Args := or_empty (save_args a).

Definition drops_storage_options (a : InitArgs) : bool :=
  has_key "storage_options" (merged_save_args a)
  || has_key "storage_options" (merged_load_args a).

(** The string [_save] writes to, for a resolved path. *)
Definition save_path_of (s : ObjState X) (p : string) : string :=
  get_filepath_str X p (_protocol (self s)).

(** The string [_invalidate_cache] invalidates: the base path. *)
Definition base_path_of (s : ObjState X) : string :=
  get_filepath_str X (_filepath (self s)) (_protocol (self s)).

(** The save-path resolution a method call on [s] makes. *)
Definition resolve_save (s : ObjState X) : result string * VersionCache X :=
  get_save_path X (_filepath (self s)) (_version (self s)) (_fs (self s))
    (vcache (rt s)) (world (rt s)).

Definition after (s : ObjState X) (w : World X) (c : VersionCache X)
    (evs : list (Event X)) : ObjState X :=
  {| self := self s;
     rt := {| world := w; vcache := c; trace := trace (rt s) ++ evs |} |}.

(** The events of materialising the argument of [_save]. *)
Definition collect_events (data : PolarsFrame X) : list (Event X) :=
  match data with
  | Lazy lf => [EvCollect lf]
  | Eager _ => []
  end.

Definition collects_to (data : PolarsFrame X) (w : World X) (df : DataFrame X) : Prop :=
  match data with
  | Lazy lf => collect X lf w = Return df
  | Eager d => d = df
  end.

(** A computation run on the object [ds] leaves the object as it is, and
    every collaborator call it makes satisfies [P]. *)
Definition behaves {A} (ds : PolarsDataset X) (P : Event X → Prop)
    (m : M (ObjState X) A) : Prop :=
  ∀ s, self s = ds →
       self (m s).2 = ds
       ∧ ∃ evs, trace (rt (m s).2) = trace (rt s) ++ evs ∧ Forall P evs.

(** The options an event hands to the dataframe engine are the object's. *)
Definition kwargs_of (ds : PolarsDataset X) (ev : Event X) : Prop :=
  match ev with
  | EvScan _ _ kwargs => kwargs = _load_args ds
  | EvWriteMethod _ _ kwargs => kwargs = _save_args ds
  | _ => True
  end.

(** The load-path resolution a method call on [s] makes. *)
Definition resolve_load (s : ObjState X) : result string * VersionCache X :=
  get_load_path X (_filepath (self s)) (_version (self s)) (_fs (self s))
    (vcache (rt s)) (world (rt s)).

(** What the object-storage branch of [_load] computes and calls: a function
    of the handle, the format, the resolved path and the world, and of
    nothing else. *)
Definition remote_load (fs : Fs X) (format path : string) (w : World X)
  : result (LazyFrame X) * list (Event X) :=
  match fsspec_filesystem X "s3" ∅ w with
  | Raise e => (Raise e, [EvFilesystem "s3" ∅])
  | Return _ =>
      match ds_dataset X path fs format w with
      | Raise e => (Raise e, [EvFilesystem "s3" ∅; EvDataset path fs format])
      | Return dataset =>
          (pl_scan_pyarrow_dataset X dataset w,
           [EvFilesystem "s3" ∅; EvDataset path fs format;
            EvScanPyarrowDataset dataset])
      end
  end.

(** The object with other save options, all else equal. *)
Definition with_save_args (sa : Args) (s : ObjState X) : ObjState X :=
  {| self := {| _file_format := _file_format (self s);
                _protocol := _protocol (self s);
                _storage_options := _storage_options (self s);
                _fs := _fs (self s);
                metadata := metadata (self s);
                _filepath := _filepath (self s);
                _version := _version (self s);
                _load_args := _load_args (self s);
                _save_args := sa |};
     rt := rt s |}.

(** The calls that can change the storage or a handle. *)
Definition is_mutating_event (ev : Event X) : bool :=
  match ev with
  | EvOpen _ _ _ | EvWrite _ _ | EvClose _ | EvInvalidateCache _ _ => true
  | _ => false
  end.

Definition is_collect_event (ev : Event X) : bool :=
  match ev with
  | EvCollect _ => true
  | _ => false
  end.

Definition is_warning_event (ev : Event X) : bool :=
  match ev with
  | EvWarning _ _ => true
  | _ => false
  end.

(** The fallback options of [__init__], with the default it adds for the
    local protocol. *)
Definition effective_fs_args (a : InitArgs) (protocol : string) : Args :=
  if String.eqb protocol "file"
  then setdefault "auto_mkdir" (PBool true) (or_empty (fs_args a))
  else or_empty (fs_args a).

End Operations.

Arguments OpLoad {X}.
Arguments OpSave {X} data.
Arguments OpExists {X}.
Arguments OpRelease {X}.
Arguments run_op {X}.
Arguments run_ops {X}.
Arguments is_write_event {X}.
Arguments engine_kwargs {X}.
Arguments invalidates_path {X}.
Arguments with_load_args {X}.
Arguments save_path_of {X}.
Arguments base_path_of {X}.
Arguments resolve_save {X}.
Arguments resolve_load {X}.
Arguments after {X}.
Arguments collect_events {X}.
Arguments collects_to {X}.
Arguments behaves {X A}.
Arguments kwargs_of {X}.
Arguments remote_load {X}.
Arguments with_save_args {X}.
Arguments is_mutating_event {X}.
Arguments is_collect_event {X}.
Arguments is_warning_event {X}.

(** The same construction arguments with another spelling of the format. *)
Definition with_file_format (ff : string) (a : InitArgs) : InitArgs :=
  {| filepath := filepath a; file_format := ff; load_args := load_args a;
     save_args := save_args a; version := version a;
     credentials := credentials a; fs_args := fs_args a;
     metadata_arg := metadata_arg a |}.

(** * Properties *)

(** ** Strings and option mappings *)

Lemma py_in_elem_of (x : string) (l : list string) : py_in x l = true ↔ x ∈ l.
Proof.
  unfold py_in. rewrite existsb_exists. split.
  - intros (y & Hin & Heq). apply String.eqb_eq in Heq. subst y.
    by apply list_elem_of_In.
  - intros Hin. exists x. split; [by apply list_elem_of_In | apply String.eqb_refl].
Qed.

Lemma py_in_not_elem_of (x : string) (l : list string) : py_in x l = false ↔ x ∉ l.
Proof.
  rewrite <- py_in_elem_of. destruct (py_in x l); split; intros; congruence.
Qed.

Lemma has_key_pop (k : string) (d : Args) : has_key k (pop k d) = false.
Proof. unfold has_key, pop. by rewrite lookup_delete_eq. Qed.

Lemma lookup_pop_ne (k k' : string) (d : Args) : k ≠ k' → pop k d !! k' = d !! k'.
Proof. intros Hne. unfold pop. by apply lookup_delete_ne. Qed.

Lemma update_defaults_load (d : Args) : update DEFAULT_LOAD_ARGS d = d.
Proof. unfold update, DEFAULT_LOAD_ARGS. apply (right_id_L ∅ (∪)). Qed.

Lemma update_defaults_save (d : Args) : update DEFAULT_SAVE_ARGS d = d.
Proof. unfold update, DEFAULT_SAVE_ARGS. apply (right_id_L ∅ (∪)). Qed.

(** The accepted formats, one by one. *)
Lemma accepted_inv (f : string) :
  py_in f ACCEPTED_FILE_FORMATS = true → f = "csv" ∨ f = "parquet".
Proof.
  unfold py_in, ACCEPTED_FILE_FORMATS. simpl.
  destruct (String.eqb f "csv") eqn:E1; [apply String.eqb_eq in E1; auto |].
  destruct (String.eqb f "parquet") eqn:E2; [apply String.eqb_eq in E2; auto |].
  discriminate.
Qed.

(** ** Construction *)

Section Construction.

Variable X : Externals.

Lemma check_file_format_accepted (ff : string) :
  py_in (lower ff) ACCEPTED_FILE_FORMATS = true →
  check_file_format ff = Return (lower ff).
Proof. intros H. unfold check_file_format. by rewrite H. Qed.

Lemma check_file_format_rejected (ff : string) :
  py_in (lower ff) ACCEPTED_FILE_FORMATS = false →
  check_file_format ff = Raise (DatasetError (format_error (lower ff))).
Proof. intros H. unfold check_file_format. by rewrite H. Qed.

(** What a successful construction has done: every field of the object and
    of the runtime it leaves, in terms of the arguments. *)
Lemma init_inv (a : InitArgs) (r r' : Runtime X) (ds : PolarsDataset X) :
  __init__ X a r = (Return ds, r') →
  ∃ path : string,
    py_in (lower (file_format a)) ACCEPTED_FILE_FORMATS = true
    ∧ _file_format ds = lower (file_format a)
    ∧ get_protocol_and_path X (filepath a) (version a) = Return (_protocol ds, path)
    ∧ fsspec_filesystem X (_protocol ds) (_storage_options ds) (world r)
      = Return (_fs ds)
    ∧ _filepath ds = PurePosixPath X path
    ∧ _version ds = version a
    ∧ _load_args ds = (if drops_storage_options a
                       then pop "storage_options" (merged_load_args a)
                       else merged_load_args a)
    ∧ _save_args ds = (if drops_storage_options a
                       then pop "storage_options" (merged_save_args a)
                       else merged_save_args a)
    ∧ world r' = world r
    ∧ trace r' = trace r
                 ++ [EvGetProtocolAndPath (filepath a) (version a);
                     EvFilesystem (_protocol ds) (_storage_options ds);
                     EvSuperInit (_filepath ds) (version a)]
                 ++ (if drops_storage_options a
                     then [EvWarning storage_options_warning (_filepath ds)]
                     else []).
Proof.
  unfold __init__, bind, lift_result, check_file_format.
  destruct (py_in (lower (file_format a)) ACCEPTED_FILE_FORMATS) eqn:Hfmt; simpl;
    [| discriminate].
  destruct (get_protocol_and_path X (filepath a) (version a)) as [[protocol path]|e]
    eqn:Hpp; [| discriminate].
  unfold inspect. simpl.
  match goal with
  | |- context [fsspec_filesystem X protocol ?o ?w] =>
      destruct (fsspec_filesystem X protocol o w) as [fs|e] eqn:Hfs
  end; [| discriminate].
  assert (Hl : match load_args a with
               | Some supplied => update DEFAULT_LOAD_ARGS supplied
               | None => DEFAULT_LOAD_ARGS
               end = merged_load_args a).
  { unfold merged_load_args. destruct (load_args a); simpl;
      [apply update_defaults_load | reflexivity]. }
  assert (Hs : match save_args a with
               | Some supplied => update DEFAULT_SAVE_ARGS supplied
               | None => DEFAULT_SAVE_ARGS
               end = merged_save_args a).
  { unfold merged_save_args. destruct (save_args a); simpl;
      [apply update_defaults_save | reflexivity]. }
  rewrite Hl, Hs. fold (drops_storage_options a).
  destruct (drops_storage_options a); unfold ret; simpl; intros [= <- <-]; simpl;
    exists path; rewrite <- ?app_assoc; simpl; repeat split; auto.
Qed.

(** C2.  A file format whose lowercased form is neither csv nor parquet makes
    construction fail with the dataset error that names the format, before
    any collaborator is called; a file format whose lowercased form is csv
    or parquet passes the format check of lines 134-143. *)
Theorem init_file_format_check (a : InitArgs) (r : Runtime X) :
  (lower (file_format a) ∉ ACCEPTED_FILE_FORMATS →
   __init__ X a r
   = (Raise (DatasetError (format_error (lower (file_format a)))), r))
  ∧ (lower (file_format a) ∈ ACCEPTED_FILE_FORMATS →
     check_file_format (file_format a) = Return (lower (file_format a))).
Proof.
  split; intros H.
  - apply py_in_not_elem_of in H.
    unfold __init__, bind, lift_result.
    by rewrite (check_file_format_rejected _ H).
  - apply py_in_elem_of in H. by apply check_file_format_accepted.
Qed.

End Construction.

(** ** Save *)

Section Save.

Variable X : Externals.

Ltac run_save :=
  unfold _save, _get_save_path, _invalidate_cache, with_open, bind, get_self,
    on_rt, resolve, inspect, perform, raise, ret, resolve_save, save_path_of,
    base_path_of, after, log_event, set_vcache, set_world in *; simpl in *.

(** When the path resolution itself raises, [_save] raises the same, having
    called nothing else. *)
Lemma save_resolution_raises data s e c :
  resolve_save s = (Raise e, c) →
  _save X data s = (Raise e, after s (world (rt s)) c [EvGetSavePath]).
Proof. intros H. run_save. by rewrite H. Qed.

(** When the directory test itself raises, [_save] raises the same. *)
Lemma save_is_dir_raises data s p c e :
  resolve_save s = (Return p, c) →
  path_is_dir X (save_path_of s p) (world (rt s)) = Raise e →
  _save X data s
  = (Raise e,
     after s (world (rt s)) c [EvGetSavePath; EvIsDir (save_path_of s p)]).
Proof.
  intros H Hd. run_save. rewrite H. simpl. rewrite Hd.
  by rewrite <- ?app_assoc.
Qed.

(** The directory guard (lines 205-209). *)
Lemma save_directory data s p c :
  resolve_save s = (Return p, c) →
  path_is_dir X (save_path_of s p) (world (rt s)) = Return true →
  _save X data s
  = (Raise (DatasetError directory_error),
     after s (world (rt s)) c [EvGetSavePath; EvIsDir (save_path_of s p)]).
Proof.
  intros H Hd. run_save. rewrite H. simpl. rewrite Hd.
  by rewrite <- ?app_assoc.
Qed.

(** The partitioning guard (lines 211-215). *)
Lemma save_partition data s p c :
  resolve_save s = (Return p, c) →
  path_is_dir X (save_path_of s p) (world (rt s)) = Return false →
  has_key "partition_cols" (_save_args (self s)) = true →
  _save X data s
  = (Raise (DatasetError partition_cols_error),
     after s (world (rt s)) c [EvGetSavePath; EvIsDir (save_path_of s p)]).
Proof.
  intros H Hd Hp. run_save. rewrite H. simpl. rewrite Hd, Hp.
  by rewrite <- ?app_assoc.
Qed.

(** A save that returns has gone through every step, each collaborator
    returning: this is what it called, in order, and the state it left. *)
Lemma save_success_inv data s s' :
  _save X data s = (Return tt, s') →
  ∃ p c df buf f w1 w2 w3 w4,
    resolve_save s = (Return p, c)
    ∧ path_is_dir X (save_path_of s p) (world (rt s)) = Return false
    ∧ has_key "partition_cols" (_save_args (self s)) = false
    ∧ collects_to data (world (rt s)) df
    ∧ py_in ("write_" +:+ _file_format (self s)) (DataFrame_attrs X) = true
    ∧ DataFrame_write X ("write_" +:+ _file_format (self s)) df
        (_save_args (self s)) = Return buf
    ∧ fs_open X (_fs (self s)) (save_path_of s p) "wb" (world (rt s)) = (Return f, w1)
    ∧ file_write X f buf w1 = (Return tt, w2)
    ∧ fs_invalidate_cache X (_fs (self s)) (base_path_of s) w2 = (Return tt, w3)
    ∧ file_close X f w3 = (Return tt, w4)
    ∧ s' = after s w4 c
             ([EvGetSavePath; EvIsDir (save_path_of s p)]
              ++ collect_events data
              ++ [EvWriteMethod ("write_" +:+ _file_format (self s)) df
                    (_save_args (self s));
                  EvOpen (_fs (self s)) (save_path_of s p) "wb";
                  EvWrite f buf;
                  EvInvalidateCache (_fs (self s)) (base_path_of s);
                  EvClose f]).
Proof.
  intros H. run_save. unfold getattr_DataFrame in H.
  destruct (get_save_path X _ _ _ _ _) as [[p|e] c] eqn:Hp; simpl in H;
    [| discriminate].
  destruct (path_is_dir X _ _) as [[]|e0] eqn:Hd; simpl in H;
    [discriminate | | discriminate].
  destruct (has_key "partition_cols" _) eqn:Hpc; simpl in H; [discriminate |].
  destruct data as [lf|df]; simpl in H;
    [destruct (collect X lf (world (rt s))) as [df|e] eqn:Hcol; [| discriminate] |];
    (destruct (py_in _ (DataFrame_attrs X)) eqn:Hin; simpl in H; [| discriminate]);
    (destruct (DataFrame_write X _ df _) as [buf|e] eqn:Hw; simpl in H;
       [| discriminate]);
    (destruct (fs_open X _ _ _ _) as [[f|e] w1] eqn:Ho; simpl in H;
       [| discriminate]);
    (destruct (file_write X f buf w1) as [[[]|e] w2] eqn:Hwr; simpl in H;
       [| destruct (file_close X f w2) as [[[]|e'] w4]; discriminate]);
    (destruct (fs_invalidate_cache X _ _ w2) as [ri w3] eqn:Hi; simpl in H);
    (destruct (file_close X f w3) as [[[]|e] w4] eqn:Hc; simpl in H;
       [| discriminate]);
    (destruct ri as [[]|e]; [| discriminate]);
    injection H as <-;
    exists p, c, df, buf, f, w1, w2, w3, w4; simpl;
    rewrite <- ?app_assoc; simpl; repeat split; auto.
Qed.

(** Conversely, when every collaborator returns, a save of a materialised
    frame returns. *)
Lemma save_returns df s p c buf f w1 w2 w3 w4 :
  resolve_save s = (Return p, c) →
  path_is_dir X (save_path_of s p) (world (rt s)) = Return false →
  has_key "partition_cols" (_save_args (self s)) = false →
  py_in ("write_" +:+ _file_format (self s)) (DataFrame_attrs X) = true →
  DataFrame_write X ("write_" +:+ _file_format (self s)) df (_save_args (self s))
  = Return buf →
  fs_open X (_fs (self s)) (save_path_of s p) "wb" (world (rt s)) = (Return f, w1) →
  file_write X f buf w1 = (Return tt, w2) →
  fs_invalidate_cache X (_fs (self s)) (base_path_of s) w2 = (Return tt, w3) →
  file_close X f w3 = (Return tt, w4) →
  _save X (Eager df) s
  = (Return tt,
     after s w4 c
       [EvGetSavePath; EvIsDir (save_path_of s p);
        EvWriteMethod ("write_" +:+ _file_format (self s)) df (_save_args (self s));
        EvOpen (_fs (self s)) (save_path_of s p) "wb";
        EvWrite f buf;
        EvInvalidateCache (_fs (self s)) (base_path_of s);
        EvClose f]).
Proof.
  intros Hr Hd Hpc Hin Hw Ho Hwr Hi Hc. run_save. unfold getattr_DataFrame.
  rewrite Hr. simpl. rewrite Hd, Hpc, Hin. simpl. rewrite Hw. simpl.
  rewrite Ho. simpl. rewrite Hwr. simpl. rewrite Hi. simpl. rewrite Hc. simpl.
  by rewrite <- !app_assoc.
Qed.


(** C3, as the code has it.  With [partition_cols] among the save options
    every [_save] raises, and nothing was serialised, opened or written:
    the storage and the object are as they were.  When the save-path
    resolution and [Path(save_path).is_dir()] both return, the exception is
    a dataset error: the directory guard's if the path is a directory, the
    partitioning guard's if not.  When one of the two raises, [_save]
    raises that exception. *)
Theorem save_partition_cols_fails data s :
  has_key "partition_cols" (_save_args (self s)) = true →
  ∃ e evs,
    (_save X data s).1 = Raise e
    ∧ world (rt (_save X data s).2) = world (rt s)
    ∧ self (_save X data s).2 = self s
    ∧ trace (rt (_save X data s).2) = trace (rt s) ++ evs
    ∧ forallb (fun ev => negb (is_write_event ev)) evs = true
    ∧ (∀ p c b,
         resolve_save s = (Return p, c) →
         path_is_dir X (save_path_of s p) (world (rt s)) = Return b →
         e = DatasetError (if b then directory_error else partition_cols_error))
    ∧ (∀ e' c, resolve_save s = (Raise e', c) → e = e')
    ∧ (∀ p c e',
         resolve_save s = (Return p, c) →
         path_is_dir X (save_path_of s p) (world (rt s)) = Raise e' →
         e = e').
Proof.
  intros Hpc.
  destruct (resolve_save s) as [[p|e] c] eqn:Hr.
  - destruct (path_is_dir X (save_path_of s p) (world (rt s))) as [[]|e] eqn:Hd.
    + exists (DatasetError directory_error). eexists.
      rewrite (save_directory data s p c Hr Hd). simpl.
      repeat split; try done.
      * intros p' c' b [= <- <-] Hb. rewrite Hd in Hb. by injection Hb as <-.
      * intros p' c' e' [= <- <-] Hb. congruence.
    + exists (DatasetError partition_cols_error). eexists.
      rewrite (save_partition data s p c Hr Hd Hpc). simpl.
      repeat split; try done.
      * intros p' c' b [= <- <-] Hb. rewrite Hd in Hb. by injection Hb as <-.
      * intros p' c' e' [= <- <-] Hb. congruence.
    + exists e. eexists.
      rewrite (save_is_dir_raises data s p c e Hr Hd). simpl.
      repeat split; try done.
      * intros p' c' b [= <- <-] Hb. congruence.
      * intros p' c' e' [= <- <-] Hb. congruence.
  - exists e. eexists. rewrite (save_resolution_raises data s e c Hr). simpl.
    repeat split; try done. intros e' c' [= -> _]. reflexivity.
Qed.

End Save.

(** ** What every method leaves alone *)

Section Frame.

Variable X : Externals.

Variable ds : PolarsDataset X.
Variable P : Event X → Prop.

Lemma behaves_ret {A} (a : A) : behaves ds P (ret a).
Proof. intros s Hs. split; [done |]. exists []. by rewrite app_nil_r. Qed.

Lemma behaves_raise {A} (e : exn) : behaves ds P (raise (A := A) e).
Proof. intros s Hs. split; [done |]. exists []. by rewrite app_nil_r. Qed.

Lemma behaves_bind {A B} (m : M (ObjState X) A) (k : A → M (ObjState X) B) :
  behaves ds P m → (∀ a, behaves ds P (k a)) → behaves ds P (bind m k).
Proof.
  intros Hm Hk s Hs. unfold bind.
  destruct (Hm s Hs) as (Hself & evs & Htr & Hevs).
  destruct (m s) as [[a|e] s1]; simpl in *.
  - destruct (Hk a s1 Hself) as (Hself' & evs' & Htr' & Hevs').
    split; [done |]. exists (evs ++ evs').
    rewrite Htr', Htr, app_assoc. split; [done | by apply Forall_app].
  - split; [done |]. by exists evs.
Qed.

Lemma behaves_get_self {B} (k : PolarsDataset X → M (ObjState X) B) :
  behaves ds P (k ds) → behaves ds P (bind (get_self X) k).
Proof. intros Hk s Hs. unfold bind, get_self. simpl. rewrite Hs. by apply Hk. Qed.

Lemma behaves_inspect {A} (ev : Event X) (f : World X → result A) :
  P ev → behaves ds P (on_rt X (inspect X ev f)).
Proof.
  intros Hev s Hs. unfold on_rt, inspect. simpl. split; [done |].
  exists [ev]. split; [done | by apply Forall_singleton].
Qed.

Lemma behaves_perform {A} (ev : Event X) (f : World X → result A * World X) :
  P ev → behaves ds P (on_rt X (perform X ev f)).
Proof.
  intros Hev s Hs. unfold on_rt, perform. simpl.
  destruct (f (world (rt s))) as [a w]. simpl. split; [done |].
  exists [ev]. split; [done | by apply Forall_singleton].
Qed.

Lemma behaves_resolve {A} (ev : Event X)
    (f : VersionCache X → World X → result A * VersionCache X) :
  P ev → behaves ds P (on_rt X (resolve X ev f)).
Proof.
  intros Hev s Hs. unfold on_rt, resolve. simpl.
  destruct (f (vcache (rt s)) (world (rt s))) as [a c]. simpl. split; [done |].
  exists [ev]. split; [done | by apply Forall_singleton].
Qed.

Lemma behaves_with_open {A} (enter : M (ObjState X) (FileObj X))
    (body : FileObj X → M (ObjState X) A) :
  behaves ds P enter → (∀ f, behaves ds P (body f)) → (∀ f, P (EvClose f)) →
  behaves ds P (with_open X enter body).
Proof.
  intros He Hb Hc s Hs. unfold with_open.
  destruct (He s Hs) as (Hself & evs & Htr & Hevs).
  destruct (enter s) as [[f|e] s1]; simpl in *; [| split; [done | by exists evs]].
  destruct (Hb f s1 Hself) as (Hself2 & evs2 & Htr2 & Hevs2).
  destruct (body f s1) as [r s2]; simpl in *.
  destruct (behaves_perform (EvClose f) (file_close X f) (Hc f) s2 Hself2)
    as (Hself3 & evs3 & Htr3 & Hevs3).
  destruct (on_rt X (perform X (EvClose f) (file_close X f)) s2) as [[u|e] s3];
    simpl in *; (split; [done |]); exists (evs ++ evs2 ++ evs3);
    rewrite Htr3, Htr2, Htr, <- !app_assoc; (split; [done |]);
    by repeat apply Forall_app_2.
Qed.

Lemma behaves_try {A B} (m : M (ObjState X) A) (h : M (ObjState X) B)
    (k : A → M (ObjState X) B) :
  behaves ds P m → behaves ds P h → (∀ a, behaves ds P (k a)) →
  behaves ds P (try_except_DatasetError m h k).
Proof.
  intros Hm Hh Hk s Hs. unfold try_except_DatasetError.
  destruct (Hm s Hs) as (Hself & evs & Htr & Hevs).
  destruct (m s) as [[a|[msg|cls]] s1]; simpl in *.
  - destruct (Hk a s1 Hself) as (Hself' & evs' & Htr' & Hevs').
    split; [done |]. exists (evs ++ evs').
    rewrite Htr', Htr, app_assoc. split; [done | by apply Forall_app].
  - destruct (Hh s1 Hself) as (Hself' & evs' & Htr' & Hevs').
    split; [done |]. exists (evs ++ evs').
    rewrite Htr', Htr, app_assoc. split; [done | by apply Forall_app].
  - split; [done |]. by exists evs.
Qed.

End Frame.

(** ** The methods, one by one *)

Section Methods.

Variable X : Externals.

Ltac behave :=
  repeat first
    [ match goal with
      | |- behaves _ _ (if ?b then _ else _) => destruct b
      | |- behaves _ _ (match (if ?b then _ else _) with _ => _ end) =>
          destruct b
      | |- behaves _ _ (match ?x with _ => _ end) => destruct x
      | |- forall _, _ => intro
      end
    | apply behaves_with_open | apply behaves_try | apply behaves_get_self
    | apply behaves_bind | apply behaves_inspect | apply behaves_perform
    | apply behaves_resolve | apply behaves_ret | apply behaves_raise
    | exact I | reflexivity ].

Lemma load_behaves ds : behaves ds (kwargs_of ds) (_load X).
Proof. unfold _load, _get_load_path, getattr_pl. behave. Qed.

Lemma save_behaves ds data : behaves ds (kwargs_of ds) (_save X data).
Proof.
  unfold _save, _get_save_path, _invalidate_cache, getattr_DataFrame. behave.
Qed.

Lemma exists_behaves ds : behaves ds (kwargs_of ds) (_exists X).
Proof. unfold _exists, _get_load_path. behave. Qed.

Lemma release_behaves ds : behaves ds (kwargs_of ds) (_release X).
Proof. unfold _release, _invalidate_cache. behave. Qed.

Lemma run_op_self (op : Op X) (s : ObjState X) : self (run_op op s) = self s.
Proof.
  destruct op; simpl.
  - by apply (load_behaves (self s)).
  - by apply (save_behaves (self s)).
  - by apply (exists_behaves (self s)).
  - by apply (release_behaves (self s)).
Qed.

Ltac run_method :=
  unfold _load, _exists, _get_load_path, try_except_DatasetError, bind,
    get_self, on_rt, resolve, inspect, perform, raise, ret, resolve_load,
    after, log_event, set_vcache, set_world in *; simpl in *.

(** C7.  When resolving the load path raises the framework's dataset error,
    [_exists] returns false; when it resolves, [_exists] is the handle's
    existence check on the resolved path; any other exception of the
    resolution goes on to the caller. *)
Theorem exists_reports_non_existence (s : ObjState X) :
  (∀ msg c, resolve_load s = (Raise (DatasetError msg), c) →
            (_exists X s).1 = Return false)
  ∧ (∀ p c, resolve_load s = (Return p, c) →
            (_exists X s).1
            = fs_exists X (_fs (self s))
                (get_filepath_str X p (_protocol (self s))) (world (rt s)))
  ∧ (∀ cls c, resolve_load s = (Raise (PyError cls), c) →
              (_exists X s).1 = Raise (PyError cls)).
Proof.
  repeat split; intros ? c H; run_method; by rewrite H.
Qed.

(** [_exists], run on a resolved path. *)
Lemma exists_run (s : ObjState X) (p : string) (c : VersionCache X) :
  resolve_load s = (Return p, c) →
  _exists X s
  = (fs_exists X (_fs (self s)) (get_filepath_str X p (_protocol (self s)))
       (world (rt s)),
     after s (world (rt s)) c
       [EvGetLoadPath;
        EvExists (_fs (self s)) (get_filepath_str X p (_protocol (self s)))]).
Proof. intros H. run_method. rewrite H. simpl. by rewrite <- app_assoc. Qed.

(** [_exists], run where the resolution finds no version. *)
Lemma exists_not_found (s : ObjState X) (msg : string) (c : VersionCache X) :
  resolve_load s = (Raise (DatasetError msg), c) →
  (_exists X s).1 = Return false.
Proof. intros H. run_method. by rewrite H. Qed.

(** The local branch of [_load], run. *)
Lemma load_local_run (s : ObjState X) (p : string) (c : VersionCache X) :
  resolve_load s = (Return p, c) →
  _protocol (self s) = "file" →
  py_in ("scan_" +:+ _file_format (self s)) (pl_attrs X) = true →
  _load X s
  = (pl_scan X ("scan_" +:+ _file_format (self s)) p (_load_args (self s))
       (world (rt s)),
     after s (world (rt s)) c
       [EvGetLoadPath;
        EvScan ("scan_" +:+ _file_format (self s)) p (_load_args (self s))]).
Proof.
  intros H Hp Hin. run_method. unfold getattr_pl. rewrite H, Hp, Hin.
  run_method. by rewrite <- app_assoc.
Qed.

(** The object-storage branch of [_load], run. *)
Lemma load_remote_run (s : ObjState X) (p : string) (c : VersionCache X) :
  resolve_load s = (Return p, c) →
  _protocol (self s) ≠ "file" →
  _load X s
  = ((remote_load (_fs (self s)) (_file_format (self s)) p (world (rt s))).1,
     after s (world (rt s)) c
       (EvGetLoadPath
        :: (remote_load (_fs (self s)) (_file_format (self s)) p
              (world (rt s))).2)).
Proof.
  intros H Hp. apply String.eqb_neq in Hp. run_method. unfold remote_load.
  rewrite H, Hp. simpl.
  destruct (fsspec_filesystem X "s3" ∅ (world (rt s))) as [fs|e]; simpl;
    [| by rewrite <- !app_assoc].
  destruct (ds_dataset X p _ _ _) as [d|e]; simpl; by rewrite <- !app_assoc.
Qed.

(** C8.  With a resolved load path: on the [file] protocol [_load] is the
    call of the engine's [scan_<format>] on that path with all the load
    options; on any other protocol it is the dataset view over the handle
    wrapped in a lazy scan, which the load options do not reach: with other
    load options the result and the calls are the same. *)
Theorem load_dispatch (s : ObjState X) (p : string) (c : VersionCache X) :
  resolve_load s = (Return p, c) →
  (_protocol (self s) = "file" →
   py_in ("scan_" +:+ _file_format (self s)) (pl_attrs X) = true →
   _load X s
   = (pl_scan X ("scan_" +:+ _file_format (self s)) p (_load_args (self s))
        (world (rt s)),
      after s (world (rt s)) c
        [EvGetLoadPath;
         EvScan ("scan_" +:+ _file_format (self s)) p (_load_args (self s))]))
  ∧ (_protocol (self s) ≠ "file" →
     (_load X s
      = ((remote_load (_fs (self s)) (_file_format (self s)) p (world (rt s))).1,
         after s (world (rt s)) c
           (EvGetLoadPath
            :: (remote_load (_fs (self s)) (_file_format (self s)) p
                  (world (rt s))).2)))
     ∧ ∀ la, (_load X (with_load_args la s)).1 = (_load X s).1
             ∧ rt (_load X (with_load_args la s)).2 = rt (_load X s).2).
Proof.
  intros H. split.
  - by apply load_local_run.
  - intros Hp. split; [by apply load_remote_run |].
    intros la.
    by rewrite (load_remote_run s p c H Hp),
      (load_remote_run (with_load_args la s) p c H Hp).
Qed.

(** C9.  Whatever sequence of load, save, existence check and release is run
    on an adapter, the object (file format, protocol, file path, version
    descriptor, load options, save options, storage options, handle) is
    afterwards what it was before; and the options construction leaves on
    the object are the merged ones, without [storage_options] when either
    mapping had that key. *)
Theorem configuration_is_fixed :
  (∀ (ops : list (Op X)) (s : ObjState X), self (run_ops ops s) = self s)
  ∧ (∀ a r ds r',
       __init__ X a r = (Return ds, r') →
       _load_args ds = (if drops_storage_options a
                        then pop "storage_options" (merged_load_args a)
                        else merged_load_args a)
       ∧ _save_args ds = (if drops_storage_options a
                          then pop "storage_options" (merged_save_args a)
                          else merged_save_args a)).
Proof.
  split.
  - intros ops. unfold run_ops.
    induction ops as [|op ops IH]; intros s; simpl; [done |].
    by rewrite IH, run_op_self.
  - intros a r ds r' H.
    destruct (init_inv X a r r' ds H) as (path & _ & _ & _ & _ & _ & _ & Hl & Hs & _).
    by split.
Qed.


(** C5.  When [storage_options] is among the supplied load options or save
    options, a construction that returns has logged the warning, and the
    options it leaves on the object are the supplied ones without that key:
    every other key is as supplied.  Every later operation hands the
    dataframe engine options without that key. *)
Theorem init_drops_storage_options a r ds r' :
  __init__ X a r = (Return ds, r') →
  has_key "storage_options" (merged_load_args a) = true
  ∨ has_key "storage_options" (merged_save_args a) = true →
  (∃ evs, trace r'
          = trace r ++ evs ++ [EvWarning storage_options_warning (_filepath ds)])
  ∧ has_key "storage_options" (_load_args ds) = false
  ∧ has_key "storage_options" (_save_args ds) = false
  ∧ (∀ k, k ≠ "storage_options" →
          _load_args ds !! k = merged_load_args a !! k
          ∧ _save_args ds !! k = merged_save_args a !! k)
  ∧ (∀ s op, self s = ds →
       self (run_op op s) = ds
       ∧ ∃ evs, trace (rt (run_op op s)) = trace (rt s) ++ evs
                ∧ Forall (fun ev => ∀ kwargs, engine_kwargs ev = Some kwargs →
                                     has_key "storage_options" kwargs = false) evs).
Proof.
  intros H Hkey.
  destruct (init_inv X a r r' ds H)
    as (path & _ & _ & _ & _ & _ & _ & Hl & Hs & _ & Htr).
  assert (Hd : drops_storage_options a = true).
  { unfold drops_storage_options. destruct Hkey as [-> | ->];
      [apply orb_true_r | apply orb_true_l]. }
  rewrite Hd in Hl, Hs, Htr.
  assert (Hnl : has_key "storage_options" (_load_args ds) = false)
    by (rewrite Hl; apply has_key_pop).
  assert (Hns : has_key "storage_options" (_save_args ds) = false)
    by (rewrite Hs; apply has_key_pop).
  split; [by eexists |]. split; [done |]. split; [done |]. split.
  - intros k Hk. rewrite Hl, Hs. split; by apply lookup_pop_ne.
  - intros s op Hself.
    assert (Hb : self (run_op op s) = ds
                 ∧ ∃ evs, trace (rt (run_op op s)) = trace (rt s) ++ evs
                          ∧ Forall (kwargs_of ds) evs).
    { destruct op; simpl.
      - by apply load_behaves.
      - by apply save_behaves.
      - by apply exists_behaves.
      - by apply release_behaves. }
    destruct Hb as (Hs' & evs & Hevs & Hall). split; [done |].
    exists evs. split; [done |].
    eapply Forall_impl; [exact Hall |].
    intros ev Hev kwargs Hkw. destruct ev; simpl in *; try discriminate;
      injection Hkw as <-; by rewrite Hev.
Qed.

End Methods.

(** ** Save, then load: the reference model *)

Section RoundTrip.

Variable C : Codec.

(** Equality of frames up to what a format does to precision and types. *)
Variable coerced : string → Frame C → Frame C → Prop.

Lemma store_of_set_store (protocol : string) (st : Storage) (w : RefWorld) :
  store_of (set_store protocol st w) protocol = st.
Proof. unfold store_of, set_store. simpl. by rewrite lookup_insert_eq. Qed.

Lemma string_append_assoc (a b c : string) : (a +:+ b) +:+ c = a +:+ (b +:+ c).
Proof.
  induction a as [|x a IH]; [reflexivity |].
  change (String x ((a +:+ b) +:+ c) = String x (a +:+ (b +:+ c))).
  by rewrite IH.
Qed.

Lemma prefix_append (a b : string) : String.prefix a (a +:+ b) = true.
Proof.
  induction a as [|x a IH]; [by destruct b |].
  change (String.prefix (String x a) (String x (a +:+ b)) = true).
  simpl. destruct (Ascii.ascii_dec x x); [exact IH | done].
Qed.

(** The framework keeps the versions of a file under the file's own path. *)
Lemma versioned_path_under (filepath v : string) :
  at_or_under filepath (versioned_path filepath v) = true.
Proof.
  unfold at_or_under, versioned_path. apply orb_true_iff. right.
  rewrite <- (string_append_assoc filepath "/"). apply prefix_append.
Qed.

(** So every path a save resolves to is the base path or lies under it. *)
Lemma ref_save_path_under filepath version fs vc w p c :
  ref_get_save_path filepath version fs vc w = (Return p, c) →
  at_or_under filepath p = true.
Proof.
  unfold ref_get_save_path. destruct version as [v|].
  - destruct (handle_exists _ _); [discriminate |].
    intros [= <- _]. apply versioned_path_under.
  - intros [= <- _]. unfold at_or_under. by rewrite String.eqb_refl.
Qed.

(** What an invalidation leaves of the cache holds nothing at or under the
    invalidated path. *)
Lemma invalidated_lookup (q k : string) (m : gmap string bool) :
  at_or_under q k = true →
  filter (fun kv => at_or_under q kv.1 = false) m !! k = None.
Proof.
  intros H. apply map_lookup_filter_None. right. intros x _. simpl.
  by rewrite H.
Qed.

(** Open, write, invalidate, close: the file then holds what was written,
    and the cache what the invalidation left of it. *)
Lemma ref_write_sequence (fs : RefFs) (p q : string) (content : bytes)
    (w : RefWorld) :
  py_in (fs_protocol fs) HTTP_PROTOCOLS = false →
  is_dir (store_of w (fs_protocol fs)) p = false →
  let f := {| fo_fs := fs; fo_path := p |} in
  ∃ w1 w2 w3 w4,
    ref_fs_open fs p "wb" w = (Return f, w1)
    ∧ ref_file_write f content w1 = (Return tt, w2)
    ∧ ref_fs_invalidate_cache fs q w2 = (Return tt, w3)
    ∧ ref_file_close f w3 = (Return tt, w4)
    ∧ files (store_of w4 (fs_protocol fs)) !! p = Some content
    ∧ listings (store_of w4 (fs_protocol fs))
      = filter (fun kv => at_or_under q kv.1 = false)
          (listings (store_of w (fs_protocol fs))).
Proof.
  intros Hhttp Hdir f.
  eexists _, _, _, _. split; [| split; [| split; [| split; [| split]]]].
  - unfold ref_fs_open. rewrite Hhttp, Hdir. reflexivity.
  - unfold ref_file_write. simpl. rewrite store_of_set_store. simpl.
    rewrite lookup_insert_eq. reflexivity.
  - unfold ref_fs_invalidate_cache. reflexivity.
  - unfold ref_file_close. simpl. rewrite !store_of_set_store. simpl.
    rewrite lookup_insert_eq. reflexivity.
  - rewrite store_of_set_store. simpl. by rewrite lookup_insert_eq.
  - rewrite !store_of_set_store. reflexivity.
Qed.

(** What construction in the reference model fixes: the handle is the one
    of the protocol, the format one of the two accepted. *)
Lemma ref_init_facts a r r' ds :
  __init__ (ref C) a r = (Return ds, r') →
  fs_protocol (_fs ds) = _protocol ds
  ∧ (_file_format ds = "csv" ∨ _file_format ds = "parquet").
Proof.
  intros H.
  destruct (init_inv (ref C) a r r' ds H) as (path & Hfmt & Hff & _ & Hfs & _).
  split.
  - simpl in Hfs. unfold ref_fsspec_filesystem in Hfs.
    destruct (py_in _ known_protocols); [| discriminate].
    injection Hfs as <-. reflexivity.
  - rewrite Hff. by apply accepted_inv.
Qed.

(** C1.  In the reference model, for an adapter whose construction returned
    (so for both accepted formats), on the local protocol and on any other
    that can be written to: when the path the framework resolves for saving
    is the one it then resolves for loading (as it is without a version
    descriptor), is no directory, and the engine reads back what it writes
    under the adapter's options as a frame equal to the original up to the
    format's coercions, then saving a materialised frame returns, loading
    returns a lazy frame, and forcing it yields such a frame. *)
Theorem save_load_round_trip a r r' ds s p c (df : DataFrame (ref C)) :
  __init__ (ref C) a r = (Return ds, r') →
  self s = ds →
  _protocol ds ∉ HTTP_PROTOCOLS →
  resolve_save s = (Return p, c) →
  (∀ w, (ref_get_load_path (_filepath ds) (_version ds) (_fs ds) c w).1
        = Return p) →
  is_dir (store_of (world (rt s)) "file") p = false →
  is_dir (store_of (world (rt s)) (_protocol ds)) p = false →
  has_key "partition_cols" (_save_args ds) = false →
  (∃ df', reads_back C (_protocol ds) (_file_format ds) (_save_args ds)
            (_load_args ds) df df'
          ∧ coerced (_file_format ds) df df') →
  ∃ s1 lf s2 df',
    _save (ref C) (Eager df) s = (Return tt, s1)
    ∧ _load (ref C) s1 = (Return lf, s2)
    ∧ collect (ref C) lf (world (rt s2)) = Return df'
    ∧ coerced (_file_format ds) df df'.
Proof.
  intros Hinit Hself Hhttp Hr Hload Hdl Hdr Hpc
    (df' & (content & Henc & Hdec) & Hco).
  destruct (ref_init_facts a r r' ds Hinit) as [Hfsp Hfmt].
  apply py_in_not_elem_of in Hhttp. subst ds.
  assert (Hsp : save_path_of s p = p).
  { unfold save_path_of. simpl. unfold ref_get_filepath_str. by rewrite Hhttp. }
  assert (Hbp : base_path_of s = _filepath (self s)).
  { unfold base_path_of. simpl. unfold ref_get_filepath_str. by rewrite Hhttp. }
  destruct (ref_write_sequence (_fs (self s)) p (_filepath (self s)) content
              (world (rt s)))
    as (w1 & w2 & w3 & w4 & Ho & Hw & Hi & Hc & Hfile & Hcache);
    [by rewrite Hfsp | by rewrite Hfsp |].
  assert (Hwf : write_format ("write_" +:+ _file_format (self s))
                = _file_format (self s))
    by (destruct Hfmt as [-> | ->]; reflexivity).
  assert (Hsf : scan_format ("scan_" +:+ _file_format (self s))
                = _file_format (self s))
    by (destruct Hfmt as [-> | ->]; reflexivity).
  assert (Hwin : py_in ("write_" +:+ _file_format (self s)) ref_DataFrame_attrs
                 = true)
    by (destruct Hfmt as [-> | ->]; reflexivity).
  assert (Hsin : py_in ("scan_" +:+ _file_format (self s)) ref_pl_attrs = true)
    by (destruct Hfmt as [-> | ->]; reflexivity).
  assert (Hs1 : ∃ s1, _save (ref C) (Eager df) s = (Return tt, s1)
                      ∧ self s1 = self s ∧ world (rt s1) = w4
                      ∧ vcache (rt s1) = c).
  { eexists. split; [| split; [| split]].
    - eapply (save_returns (ref C) df s p c content
                {| fo_fs := _fs (self s); fo_path := p |} w1 w2 w3 w4); auto.
      + rewrite Hsp. simpl. unfold ref_path_is_dir. by rewrite Hdl.
      + simpl. unfold ref_DataFrame_write. rewrite Hwf. exact Henc.
      + rewrite Hsp. exact Ho.
      + rewrite Hbp. exact Hi.
    - reflexivity.
    - reflexivity.
    - reflexivity. }
  destruct Hs1 as (s1 & Hs1 & Hself1 & Hw4 & Hvc).
  exists s1.
  destruct (resolve_load s1) as [rl c2] eqn:Hrl.
  assert (Hrp : rl = Return p).
  { pose proof (Hload (world (rt s1))) as Hl.
    unfold resolve_load in Hrl. simpl in Hrl. rewrite Hself1, Hvc in Hrl.
    by rewrite Hrl in Hl. }
  subst rl.
  destruct (String.eqb (_protocol (self s)) "file") eqn:Hproto.
  - apply String.eqb_eq in Hproto.
    assert (Hp1 : _protocol (self s1) = "file") by (by rewrite Hself1).
    assert (Hin1 : py_in ("scan_" +:+ _file_format (self s1)) (pl_attrs (ref C))
                   = true) by (by rewrite Hself1).
    eexists _, _, df'. split; [exact Hs1 |]. split; [| split; [| exact Hco]].
    + rewrite (load_local_run (ref C) s1 p c2 Hrl Hp1 Hin1). reflexivity.
    + simpl. rewrite Hw4, Hself1, Hsf.
      rewrite Hfsp, Hproto in Hfile. by rewrite Hfile.
  - apply String.eqb_neq in Hproto.
    assert (Hp1 : _protocol (self s1) ≠ "file") by (by rewrite Hself1).
    assert (Hex : handle_exists (store_of w4 (fs_protocol (_fs (self s)))) p
                  = true).
    { unfold handle_exists, storage_exists, is_file.
      rewrite Hcache, invalidated_lookup, Hfile; [done |].
      apply (ref_save_path_under _ _ _ _ _ _ _ Hr). }
    eexists _, _, df'. split; [exact Hs1 |]. split; [| split; [| exact Hco]].
    + rewrite (load_remote_run (ref C) s1 p c2 Hrl Hp1).
      unfold remote_load. simpl. unfold ref_ds_dataset.
      rewrite Hw4, Hself1, Hex. reflexivity.
    + simpl. by rewrite Hfile.
Qed.

(** ** Save, then look again: the handle's cache *)

(** What a save that returned has done, in the reference model. *)
Lemma ref_save_inv a r r' ds s data s1 :
  __init__ (ref C) a r = (Return ds, r') →
  self s = ds →
  _save (ref C) data s = (Return tt, s1) →
  ∃ p c df content,
    resolve_save s = (Return p, c)
    ∧ py_in (_protocol ds) HTTP_PROTOCOLS = false
    ∧ collects_to data (world (rt s)) df
    ∧ encode C (_file_format ds) df (_save_args ds) = Return content
    ∧ self s1 = ds
    ∧ trace (rt s1)
      = trace (rt s)
        ++ [EvGetSavePath; EvIsDir p] ++ collect_events data
        ++ [EvWriteMethod ("write_" +:+ _file_format ds) df (_save_args ds);
            EvOpen (_fs ds) p "wb";
            EvWrite ({| fo_fs := _fs ds; fo_path := p |} : FileObj (ref C))
              content;
            EvInvalidateCache (_fs ds) (_filepath ds);
            EvClose ({| fo_fs := _fs ds; fo_path := p |} : FileObj (ref C))]
    ∧ at_or_under (_filepath ds) p = true
    ∧ files (store_of (world (rt s1)) (_protocol ds)) !! p = Some content
    ∧ listings (store_of (world (rt s1)) (_protocol ds))
      = filter (fun kv => at_or_under (_filepath ds) kv.1 = false)
          (listings (store_of (world (rt s)) (_protocol ds))).
Proof.
  intros Hinit Hself Hsave.
  destruct (ref_init_facts a r r' ds Hinit) as [Hfsp Hfmt]. subst ds.
  destruct (save_success_inv (ref C) data s s1 Hsave)
    as (p & c & df & buf & f & w1 & w2 & w3 & w4
        & Hr & _ & _ & Hcol & _ & Hw & Ho & Hwr & Hi & Hc & ->).
  assert (Hhttp : py_in (_protocol (self s)) HTTP_PROTOCOLS = false).
  { destruct (py_in (_protocol (self s)) HTTP_PROTOCOLS) eqn:E; [| done].
    simpl in Ho. unfold ref_fs_open in Ho. rewrite Hfsp, E in Ho.
    discriminate. }
  assert (Hsp : save_path_of s p = p).
  { unfold save_path_of. simpl. unfold ref_get_filepath_str. by rewrite Hhttp. }
  assert (Hbp : base_path_of s = _filepath (self s)).
  { unfold base_path_of. simpl. unfold ref_get_filepath_str. by rewrite Hhttp. }
  rewrite Hsp in Ho. rewrite Hbp in Hi. rewrite Hsp, Hbp.
  assert (Hdir : is_dir (store_of (world (rt s)) (fs_protocol (_fs (self s)))) p
                 = false).
  { destruct (is_dir _ p) eqn:E; [| done].
    simpl in Ho. unfold ref_fs_open in Ho. rewrite E in Ho.
    destruct (py_in _ HTTP_PROTOCOLS); discriminate. }
  destruct (ref_write_sequence (_fs (self s)) p (_filepath (self s)) buf
              (world (rt s)))
    as (w1' & w2' & w3' & w4' & Ho' & Hwr' & Hi' & Hc' & Hfile & Hcache);
    [by rewrite Hfsp | exact Hdir |].
  pose proof (eq_trans (eq_sym Ho') Ho) as E1. injection E1 as <- <-.
  pose proof (eq_trans (eq_sym Hwr') Hwr) as E2. injection E2 as <-.
  pose proof (eq_trans (eq_sym Hi') Hi) as E3. injection E3 as <-.
  pose proof (eq_trans (eq_sym Hc') Hc) as E4. injection E4 as <-.
  assert (Hwf : write_format ("write_" +:+ _file_format (self s))
                = _file_format (self s))
    by (destruct Hfmt as [-> | ->]; reflexivity).
  change (encode C (write_format ("write_" +:+ _file_format (self s))) df
            (_save_args (self s)) = Return buf) in Hw.
  rewrite Hwf in Hw.
  exists p, c, df, buf.
  split; [exact Hr |]. split; [exact Hhttp |]. split; [exact Hcol |].
  split; [exact Hw |]. split; [reflexivity |]. split; [reflexivity |].
  split; [apply (ref_save_path_under _ _ _ _ _ _ _ Hr) |].
  rewrite <- Hfsp. split; [exact Hfile | exact Hcache].
Qed.

(** The existence check on a resolved path is the handle's answer. *)
Lemma ref_exists_at (ds : PolarsDataset (ref C)) (t : ObjState (ref C)) p c1 :
  fs_protocol (_fs ds) = _protocol ds →
  py_in (_protocol ds) HTTP_PROTOCOLS = false →
  self t = ds →
  resolve_load t = (Return p, c1) →
  (_exists (ref C) t).1
  = Return (handle_exists (store_of (world (rt t)) (_protocol ds)) p).
Proof.
  intros Hfsp Hhttp Ht Hrl. rewrite (exists_run (ref C) t p c1 Hrl). simpl.
  unfold ref_fs_exists, ref_get_filepath_str. rewrite Ht.
  by rewrite Hhttp, Hfsp.
Qed.

(** A load of a path that holds a file the handle has no cached answer
    about returns a lazy frame, and forcing it is the engine's reading of
    that file. *)
Lemma ref_load_reads (ds : PolarsDataset (ref C)) (t : ObjState (ref C)) p c1
    content :
  fs_protocol (_fs ds) = _protocol ds →
  _file_format ds = "csv" ∨ _file_format ds = "parquet" →
  self t = ds →
  resolve_load t = (Return p, c1) →
  files (store_of (world (rt t)) (_protocol ds)) !! p = Some content →
  listings (store_of (world (rt t)) (_protocol ds)) !! p = None →
  ∃ lf t',
    _load (ref C) t = (Return lf, t')
    ∧ collect (ref C) lf (world (rt t'))
      = (if String.eqb (_protocol ds) "file"
         then decode C (_file_format ds) content (_load_args ds)
         else pa_decode C (_file_format ds) content).
Proof.
  intros Hfsp Hfmt Ht Hrl Hfile Hnone. subst ds.
  assert (Hsf : scan_format ("scan_" +:+ _file_format (self t))
                = _file_format (self t))
    by (destruct Hfmt as [-> | ->]; reflexivity).
  assert (Hsin : py_in ("scan_" +:+ _file_format (self t)) (pl_attrs (ref C))
                 = true)
    by (destruct Hfmt as [-> | ->]; reflexivity).
  destruct (String.eqb (_protocol (self t)) "file") eqn:Hproto.
  - apply String.eqb_eq in Hproto.
    eexists _, _. split.
    + rewrite (load_local_run (ref C) t p c1 Hrl Hproto Hsin). reflexivity.
    + simpl. rewrite Hsf. rewrite Hproto in Hfile. by rewrite Hfile.
  - apply String.eqb_neq in Hproto.
    assert (Hex : handle_exists (store_of (world (rt t)) (fs_protocol (_fs (self t)))) p
                  = true).
    { unfold handle_exists, storage_exists, is_file.
      by rewrite Hfsp, Hnone, Hfile. }
    eexists _, _. split.
    + rewrite (load_remote_run (ref C) t p c1 Hrl Hproto).
      unfold remote_load. simpl. unfold ref_ds_dataset.
      rewrite Hex. reflexivity.
    + simpl. by rewrite Hfsp, Hfile.
Qed.

(** C6.  In the reference model, whose handles answer from their cache and
    whose [invalidate_cache(path)] discards what is cached at or under the
    path, as fsspec documents it: a save that returned has written the
    buffer to the resolved path and, right after the write, invalidated the
    base path; the written path is the base path or, with a version, lies
    under it, so no cached answer about it is left; and the existence check
    and the load that resolve to the written path then see the new file. *)
Theorem save_invalidates_written_path a r r' ds s data s1 :
  __init__ (ref C) a r = (Return ds, r') →
  self s = ds →
  _save (ref C) data s = (Return tt, s1) →
  ∃ p c df content,
    resolve_save s = (Return p, c)
    ∧ collects_to data (world (rt s)) df
    ∧ encode C (_file_format ds) df (_save_args ds) = Return content
    ∧ trace (rt s1)
      = trace (rt s)
        ++ [EvGetSavePath; EvIsDir p] ++ collect_events data
        ++ [EvWriteMethod ("write_" +:+ _file_format ds) df (_save_args ds);
            EvOpen (_fs ds) p "wb";
            EvWrite ({| fo_fs := _fs ds; fo_path := p |} : FileObj (ref C))
              content;
            EvInvalidateCache (_fs ds) (_filepath ds);
            EvClose ({| fo_fs := _fs ds; fo_path := p |} : FileObj (ref C))]
    ∧ at_or_under (_filepath ds) p = true
    ∧ (∀ q, at_or_under (_filepath ds) q = true →
            listings (store_of (world (rt s1)) (_protocol ds)) !! q = None)
    ∧ files (store_of (world (rt s1)) (_protocol ds)) !! p = Some content
    ∧ (∀ c1, resolve_load s1 = (Return p, c1) →
         (_exists (ref C) s1).1 = Return true
         ∧ ∃ lf s2,
             _load (ref C) s1 = (Return lf, s2)
             ∧ collect (ref C) lf (world (rt s2))
               = (if String.eqb (_protocol ds) "file"
                  then decode C (_file_format ds) content (_load_args ds)
                  else pa_decode C (_file_format ds) content)).
Proof.
  intros Hinit Hself Hsave.
  destruct (ref_init_facts a r r' ds Hinit) as [Hfsp Hfmt].
  destruct (ref_save_inv a r r' ds s data s1 Hinit Hself Hsave)
    as (p & c & df & content & Hr & Hhttp & Hcol & Henc & Hself1 & Htr
        & Hunder & Hfile & Hcache).
  assert (Hnone : ∀ q, at_or_under (_filepath ds) q = true →
            listings (store_of (world (rt s1)) (_protocol ds)) !! q = None).
  { intros q Hq. rewrite Hcache. by apply invalidated_lookup. }
  exists p, c, df, content.
  split; [exact Hr |]. split; [exact Hcol |]. split; [exact Henc |].
  split; [exact Htr |]. split; [exact Hunder |]. split; [exact Hnone |].
  split; [exact Hfile |].
  intros c1 Hrl. split.
  - rewrite (ref_exists_at ds s1 p c1 Hfsp Hhttp Hself1 Hrl).
    unfold handle_exists, storage_exists, is_file.
    by rewrite (Hnone p Hunder), Hfile.
  - apply (ref_load_reads ds s1 p c1 content Hfsp Hfmt Hself1 Hrl Hfile).
    by apply Hnone.
Qed.

End RoundTrip.

(** * Concrete runs in the reference model *)

Lemma init_file_format_check_witness :
  __init__ (ref tag_codec) (init_args "test.json" "JSON") (start tag_codec empty_world)
  = (Raise (DatasetError (format_error "json")), start tag_codec empty_world)
  ∧ check_file_format "CSV" = Return "csv".
Proof.
  split.
  - apply (proj1 (init_file_format_check (ref tag_codec)
                    (init_args "test.json" "JSON") (start tag_codec empty_world))).
    apply py_in_not_elem_of. reflexivity.
  - apply (proj2 (init_file_format_check (ref tag_codec)
                    (init_args "test.csv" "CSV") (start tag_codec empty_world))).
    apply py_in_elem_of. reflexivity.
Defined.

Lemma save_partition_cols_fails_witness :
  let s := state_of tag_codec
             (adapter tag_codec "file" "test.csv" "csv" None ∅
                {["partition_cols" := PList [PStr "a"]]})
             empty_world in
  (_save (ref tag_codec) (Eager two_rows) s).1
  = Raise (DatasetError partition_cols_error)
  ∧ world (rt (_save (ref tag_codec) (Eager two_rows) s).2) = empty_world
  ∧ trace (rt (_save (ref tag_codec) (Eager two_rows) s).2)
    = [EvGetSavePath; EvIsDir "test.csv"].
Proof.
  intros s.
  destruct (save_partition_cols_fails (ref tag_codec) (Eager two_rows) s eq_refl)
    as (e & evs & He & Hw & _ & _ & _ & Hp & _).
  split; [| split].
  - rewrite He. f_equal.
    apply (Hp "test.csv" (None, None) false); reflexivity.
  - exact Hw.
  - reflexivity.
Defined.

(** C3, as stated, fails where the directory test itself raises: on a disk
    that refuses a name of 300 letters, a save with [partition_cols] among
    its options raises the [OSError] of [Path.is_dir], which is no dataset
    error. *)
Lemma save_partition_cols_counterexample :
  has_key "partition_cols" (_save_args (self long_name_state)) = true
  ∧ (resolve_save long_name_state).1 = Return long_name
  ∧ (_save short_names (Eager (X := short_names) two_rows) long_name_state).1
    = Raise (PyError "OSError")
  ∧ ∀ msg,
      (_save short_names (Eager (X := short_names) two_rows) long_name_state).1
      ≠ Raise (DatasetError msg).
Proof.
  assert (H : (_save short_names (Eager (X := short_names) two_rows)
                 long_name_state).1
              = Raise (PyError "OSError")) by (vm_compute; reflexivity).
  split; [reflexivity |]. split; [reflexivity |]. split; [exact H |].
  intros msg. rewrite H. discriminate.
Qed.


Lemma init_drops_storage_options_witness :
  let ds := adapter tag_codec "file" "test.csv" "csv" None {["sep" := PStr ","]} ∅ in
  __init__ (ref tag_codec) init_args_with_storage_options (start tag_codec empty_world)
  = (Return ds,
     (__init__ (ref tag_codec) init_args_with_storage_options
        (start tag_codec empty_world)).2)
  ∧ has_key "storage_options" (_load_args ds) = false
  ∧ _load_args ds !! "sep" = Some (PStr ",").
Proof.
  intros ds.
  assert (Hinit : __init__ (ref tag_codec) init_args_with_storage_options
                    (start tag_codec empty_world)
                  = (Return ds,
                     (__init__ (ref tag_codec) init_args_with_storage_options
                        (start tag_codec empty_world)).2))
    by reflexivity.
  destruct (init_drops_storage_options (ref tag_codec) _ _ _ _ Hinit
              (or_introl eq_refl)) as (_ & Hl & _ & Hk & _).
  split; [exact Hinit |]. split; [exact Hl |].
  reflexivity.
Defined.


Lemma save_invalidates_written_path_witness :
  let ds := adapter tag_codec "s3" "bucket/cars.parquet" "parquet"
              (Some {| load := None; save := None |}) ∅ ∅ in
  let s := state_of tag_codec ds world_with_cached_absence in
  let s1 := (_save (ref tag_codec) (Eager two_rows) s).2 in
  ∃ p c df content,
    resolve_save s = (Return p, c)
    ∧ collects_to (Eager two_rows) (world (rt s)) df
    ∧ encode tag_codec (_file_format ds) df (_save_args ds) = Return content
    ∧ trace (rt s1)
      = trace (rt s)
        ++ [EvGetSavePath; EvIsDir p] ++ collect_events (Eager two_rows)
        ++ [EvWriteMethod ("write_" +:+ _file_format ds) df (_save_args ds);
            EvOpen (_fs ds) p "wb";
            EvWrite ({| fo_fs := _fs ds; fo_path := p |}
                     : FileObj (ref tag_codec)) content;
            EvInvalidateCache (_fs ds) (_filepath ds);
            EvClose ({| fo_fs := _fs ds; fo_path := p |}
                     : FileObj (ref tag_codec))]
    ∧ at_or_under (_filepath ds) p = true
    ∧ (∀ q, at_or_under (_filepath ds) q = true →
            listings (store_of (world (rt s1)) (_protocol ds)) !! q = None)
    ∧ files (store_of (world (rt s1)) (_protocol ds)) !! p = Some content
    ∧ (∀ c1, resolve_load s1 = (Return p, c1) →
         (_exists (ref tag_codec) s1).1 = Return true
         ∧ ∃ lf s2,
             _load (ref tag_codec) s1 = (Return lf, s2)
             ∧ collect (ref tag_codec) lf (world (rt s2))
               = (if String.eqb (_protocol ds) "file"
                  then decode tag_codec (_file_format ds) content (_load_args ds)
                  else pa_decode tag_codec (_file_format ds) content)).
Proof.
  intros ds s s1.
  apply (save_invalidates_written_path tag_codec
           (versioned_init_args "s3://bucket/cars.parquet" "parquet"
              {| load := None; save := None |})
           (start tag_codec world_with_cached_absence)
           (__init__ (ref tag_codec)
              (versioned_init_args "s3://bucket/cars.parquet" "parquet"
                 {| load := None; save := None |})
              (start tag_codec world_with_cached_absence)).2
           ds s (Eager two_rows) s1).
  - reflexivity.
  - reflexivity.
  - reflexivity.
Defined.

(** The run of that witness: the handle had cached that the versioned path
    does not exist; the save writes it, and the existence check and the
    load that follow see the file. *)
Lemma cached_absence_run :
  let ds := adapter tag_codec "s3" "bucket/cars.parquet" "parquet"
              (Some {| load := None; save := None |}) ∅ ∅ in
  let s := state_of tag_codec ds world_with_cached_absence in
  let s1 := (_save (ref tag_codec) (Eager two_rows) s).2 in
  (resolve_save s).1 = Return cached_version
  ∧ (_save (ref tag_codec) (Eager two_rows) s).1 = Return tt
  ∧ (resolve_load s1).1 = Return cached_version
  ∧ (_exists (ref tag_codec) s1).1 = Return true
  ∧ (∃ lf, (_load (ref tag_codec) s1).1 = Return lf
           ∧ collect (ref tag_codec) lf (world (rt (_load (ref tag_codec) s1).2))
             = Return two_rows).
Proof.
  intros ds s s1. repeat split; try (vm_compute; reflexivity).
  eexists. split; vm_compute; reflexivity.
Qed.

(** With a handle that keeps its cache, the same save leaves the stale
    answer in place: the file is there and the existence check says no. *)
Lemma kept_cache_run :
  let s1 := (_save forgetful (Eager (X := forgetful) two_rows)
               cached_absence_state).2 in
  (_save forgetful (Eager (X := forgetful) two_rows) cached_absence_state).1
  = Return tt
  ∧ files (store_of (world (rt s1)) "s3") !! cached_version
    = Some [Byte.x50; Byte.x01; Byte.x02]
  ∧ (resolve_load s1).1 = Return cached_version
  ∧ (_exists forgetful s1).1 = Return false.
Proof. intros s1. repeat split; vm_compute; reflexivity. Qed.

Lemma exists_reports_non_existence_witness :
  (_exists (ref tag_codec)
     (state_of tag_codec
        (adapter tag_codec "file" "data/cars.csv" "csv"
           (Some {| load := None; save := None |}) ∅ ∅)
        empty_world)).1
  = Return false
  ∧ (_exists (ref tag_codec)
       (state_of tag_codec (adapter tag_codec "file" "test.csv" "csv" None ∅ ∅)
          stocked_world)).1
    = Return true.
Proof.
  split.
  - apply (proj1 (exists_reports_non_existence (ref tag_codec) _)
             "Did not find any versions for data/cars.csv" (None, None)).
    reflexivity.
  - apply (proj1 (proj2 (exists_reports_non_existence (ref tag_codec)
                           (state_of tag_codec
                              (adapter tag_codec "file" "test.csv" "csv" None ∅ ∅)
                              stocked_world)))
             "test.csv" (None, None)).
    reflexivity.
Defined.

Lemma load_dispatch_witness :
  (_load (ref tag_codec)
     (state_of tag_codec
        (adapter tag_codec "file" "test.csv" "csv" None {["sep" := PStr ","]} ∅)
        stocked_world)).1
  = Return (LScan tag_codec "scan_csv" "test.csv" {["sep" := PStr ","]})
  ∧ (_load (ref tag_codec)
       (state_of tag_codec
          (adapter tag_codec "s3" "bucket/test.parquet" "parquet" None
             {["sep" := PStr ","]} ∅)
          stocked_world)).1
    = Return (LPyarrow tag_codec
                {| pa_path := "bucket/test.parquet";
                   pa_fs := {| fs_protocol := "s3"; fs_kwargs := ∅ |};
                   pa_format := "parquet" |}).
Proof.
  split.
  - destruct (load_dispatch (ref tag_codec)
                (state_of tag_codec
                   (adapter tag_codec "file" "test.csv" "csv" None
                      {["sep" := PStr ","]} ∅)
                   stocked_world)
                "test.csv" (None, None) eq_refl) as [Hlocal _].
    rewrite (Hlocal eq_refl eq_refl). reflexivity.
  - destruct (load_dispatch (ref tag_codec)
                (state_of tag_codec
                   (adapter tag_codec "s3" "bucket/test.parquet" "parquet" None
                      {["sep" := PStr ","]} ∅)
                   stocked_world)
                "bucket/test.parquet" (None, None) eq_refl) as [_ Hremote].
    destruct Hremote as [Hrun _]; [discriminate |].
    rewrite Hrun. reflexivity.
Defined.

Lemma configuration_is_fixed_witness :
  let ds := adapter tag_codec "file" "test.csv" "csv" None {["sep" := PStr ","]} ∅ in
  self (run_ops [OpSave (Eager two_rows); OpLoad; OpExists; OpRelease; OpLoad]
          (state_of tag_codec ds empty_world))
  = ds
  ∧ _load_args ds
    = (if drops_storage_options init_args_with_storage_options
       then pop "storage_options" (merged_load_args init_args_with_storage_options)
       else merged_load_args init_args_with_storage_options)
  ∧ _save_args ds
    = (if drops_storage_options init_args_with_storage_options
       then pop "storage_options" (merged_save_args init_args_with_storage_options)
       else merged_save_args init_args_with_storage_options).
Proof.
  intros ds. split.
  - apply (proj1 (configuration_is_fixed (ref tag_codec))).
  - apply (proj2 (configuration_is_fixed (ref tag_codec))
             init_args_with_storage_options (start tag_codec empty_world) ds
             (__init__ (ref tag_codec) init_args_with_storage_options
                (start tag_codec empty_world)).2).
    reflexivity.
Defined.


Lemma save_load_round_trip_witness :
  (∃ s1 lf s2 df',
     _save (ref tag_codec) (Eager two_rows)
       (state_of tag_codec (adapter tag_codec "file" "test.csv" "csv" None ∅ ∅)
          empty_world)
     = (Return tt, s1)
     ∧ _load (ref tag_codec) s1 = (Return lf, s2)
     ∧ collect (ref tag_codec) lf (world (rt s2)) = Return df'
     ∧ two_rows = df')
  ∧ (∃ s1 lf s2 df',
       _save (ref tag_codec) (Eager two_rows)
         (state_of tag_codec
            (adapter tag_codec "s3" "bucket/cars.parquet" "parquet" None ∅ ∅)
            empty_world)
       = (Return tt, s1)
       ∧ _load (ref tag_codec) s1 = (Return lf, s2)
       ∧ collect (ref tag_codec) lf (world (rt s2)) = Return df'
       ∧ two_rows = df').
Proof.
  split.
  - apply (save_load_round_trip tag_codec (fun _ => eq)
             (init_args "test.csv" "csv") (start tag_codec empty_world)
             (__init__ (ref tag_codec) (init_args "test.csv" "csv")
                (start tag_codec empty_world)).2
             (adapter tag_codec "file" "test.csv" "csv" None ∅ ∅)
             _ "test.csv" (None, None) two_rows).
    + reflexivity.
    + reflexivity.
    + apply py_in_not_elem_of. reflexivity.
    + reflexivity.
    + intros w. reflexivity.
    + reflexivity.
    + reflexivity.
    + reflexivity.
    + exists two_rows. split; [| reflexivity].
      exists [Byte.x63; Byte.x01; Byte.x02]. split; reflexivity.
  - apply (save_load_round_trip tag_codec (fun _ => eq)
             (init_args "s3://bucket/cars.parquet" "parquet")
             (start tag_codec empty_world)
             (__init__ (ref tag_codec) (init_args "s3://bucket/cars.parquet" "parquet")
                (start tag_codec empty_world)).2
             (adapter tag_codec "s3" "bucket/cars.parquet" "parquet" None ∅ ∅)
             _ "bucket/cars.parquet" (None, None) two_rows).
    + reflexivity.
    + reflexivity.
    + apply py_in_not_elem_of. reflexivity.
    + reflexivity.
    + intros w. reflexivity.
    + reflexivity.
    + reflexivity.
    + reflexivity.
    + exists two_rows. split; [| reflexivity].
      exists [Byte.x50; Byte.x01; Byte.x02]. split; reflexivity.
Defined.

(** * Further properties *)

(** ** Construction, continued *)

Lemma ascii_lower_idempotent (c : ascii) : ascii_lower (ascii_lower c) = ascii_lower c.
Proof. destruct c as [[] [] [] [] [] [] [] []]; reflexivity. Qed.

Lemma lower_idempotent (s : string) : lower (lower s) = lower s.
Proof.
  induction s as [|c rest IH]; simpl; [reflexivity |].
  by rewrite ascii_lower_idempotent, IH.
Qed.

Section ConstructionMore.

Variable X : Externals.

(** The storage options a returning construction leaves. *)
Lemma init_storage_inv (a : InitArgs) (r r' : Runtime X) (ds : PolarsDataset X) :
  __init__ X a r = (Return ds, r') →
  _storage_options ds
  = update (or_empty (credentials a)) (effective_fs_args a (_protocol ds)).
Proof.
  unfold __init__, bind, lift_result, check_file_format, effective_fs_args.
  destruct (py_in (lower (file_format a)) ACCEPTED_FILE_FORMATS); simpl;
    [| discriminate].
  destruct (get_protocol_and_path X (filepath a) (version a)) as [[protocol path]|e];
    [| discriminate].
  unfold inspect. simpl.
  match goal with
  | |- context [fsspec_filesystem X protocol ?o ?w] =>
      destruct (fsspec_filesystem X protocol o w) as [fs|e]
  end; [| discriminate].
  match goal with
  | |- context [if ?b then _ else _] => destruct b
  end; unfold ret; simpl; intros [= <- <-]; reflexivity.
Qed.

(** X1.  The options the filesystem handle is made with: a key of the
    filesystem arguments keeps their value, also against the credentials;
    on the [file] protocol [auto_mkdir] defaults to true unless the
    filesystem arguments set it (the credentials do not count); every other
    key comes from the credentials.  The handle kept on the object is the
    one made for the protocol with exactly these options. *)
Theorem init_storage_options (a : InitArgs) (r r' : Runtime X) (ds : PolarsDataset X) :
  __init__ X a r = (Return ds, r') →
  (∀ k, _storage_options ds !! k
        = match or_empty (fs_args a) !! k with
          | Some v => Some v
          | None =>
              if String.eqb k "auto_mkdir" && String.eqb (_protocol ds) "file"
              then Some (PBool true)
              else or_empty (credentials a) !! k
          end)
  ∧ fsspec_filesystem X (_protocol ds) (_storage_options ds) (world r)
    = Return (_fs ds).
Proof.
  intros H. split.
  - intros k. rewrite (init_storage_inv a r r' ds H).
    unfold update, effective_fs_args, setdefault.
    rewrite lookup_union.
    destruct (String.eqb (_protocol ds) "file") eqn:Hp.
    + destruct (or_empty (fs_args a) !! "auto_mkdir") as [v|] eqn:Hm.
      * rewrite andb_true_r.
        destruct (or_empty (fs_args a) !! k) as [v'|] eqn:Hk; simpl.
        -- by destruct (or_empty (credentials a) !! k).
        -- destruct (String.eqb k "auto_mkdir") eqn:Hka.
           ++ apply String.eqb_eq in Hka. congruence.
           ++ by destruct (or_empty (credentials a) !! k).
      * rewrite andb_true_r.
        destruct (String.eqb k "auto_mkdir") eqn:Hka.
        -- apply String.eqb_eq in Hka. subst k.
           rewrite lookup_insert_eq, Hm. simpl.
           by destruct (or_empty (credentials a) !! "auto_mkdir").
        -- apply String.eqb_neq in Hka.
           rewrite lookup_insert_ne by congruence.
           destruct (or_empty (fs_args a) !! k); simpl;
             by destruct (or_empty (credentials a) !! k).
    + rewrite andb_false_r.
      destruct (or_empty (fs_args a) !! k); simpl;
        by destruct (or_empty (credentials a) !! k).
  - by destruct (init_inv X a r r' ds H) as (path & _ & _ & _ & Hfs & _).
Qed.

(** X2.  A returning construction logs the [storage_options] warning exactly
    when one of the two option mappings has that key; without the key it
    makes its three calls and nothing else, and the options on the object
    are the supplied ones. *)
Theorem init_warns_exactly_when_dropping (a : InitArgs) (r r' : Runtime X)
    (ds : PolarsDataset X) :
  __init__ X a r = (Return ds, r') →
  ∃ evs,
    trace r' = trace r ++ evs
    ∧ existsb is_warning_event evs = drops_storage_options a
    ∧ (drops_storage_options a = false →
       evs = [EvGetProtocolAndPath (filepath a) (version a);
              EvFilesystem (_protocol ds) (_storage_options ds);
              EvSuperInit (_filepath ds) (version a)]
       ∧ _load_args ds = merged_load_args a
       ∧ _save_args ds = merged_save_args a).
Proof.
  intros H.
  destruct (init_inv X a r r' ds H)
    as (path & _ & _ & _ & _ & _ & _ & Hl & Hs & _ & Htr).
  eexists. split; [exact Htr |].
  destruct (drops_storage_options a); simpl; split; try done.
Qed.


(** X4.  Construction reads the file format through its lowercased form
    only: two spellings with the same lowercased form give the same object,
    the same runtime and the same outcome; so does the normalised format
    itself. *)
Theorem init_case_insensitive (a : InitArgs) (ff : string) (r : Runtime X) :
  lower ff = lower (file_format a) →
  __init__ X (with_file_format ff a) r = __init__ X a r
  ∧ __init__ X (with_file_format (lower ff) a) r = __init__ X a r.
Proof.
  intros H.
  assert (Hgen : ∀ g, lower g = lower (file_format a) →
                      __init__ X (with_file_format g a) r = __init__ X a r).
  { intros g Hg. unfold __init__, check_file_format. simpl. by rewrite Hg. }
  split; [by apply Hgen |].
  apply Hgen. by rewrite lower_idempotent.
Qed.

End ConstructionMore.

(** ** Save, continued *)

Section SaveMore.

Variable X : Externals.

Ltac save_steps :=
  unfold _save, _get_save_path, _invalidate_cache, with_open, bind, get_self,
    on_rt, resolve, inspect, perform, raise, ret, resolve_save, save_path_of,
    base_path_of, after, getattr_DataFrame, collects_to, collect_events,
    log_event, set_vcache, set_world in *; simpl in *.

(** X5.  When frames have no [write_<format>] method, a save that passes
    its guards raises the dataset error that names the method; a lazy frame
    has been materialised by then, and nothing was serialised or opened. *)
Theorem save_without_write_method data s p c df :
  resolve_save s = (Return p, c) →
  path_is_dir X (save_path_of s p) (world (rt s)) = Return false →
  has_key "partition_cols" (_save_args (self s)) = false →
  collects_to data (world (rt s)) df →
  py_in ("write_" +:+ _file_format (self s)) (DataFrame_attrs X) = false →
  _save X data s
  = (Raise (DatasetError (write_method_error (_file_format (self s)))),
     after s (world (rt s)) c
       ([EvGetSavePath; EvIsDir (save_path_of s p)] ++ collect_events data)).
Proof.
  intros Hr Hd Hpc Hcol Hin. save_steps. rewrite Hr. simpl. rewrite Hd, Hpc.
  destruct data as [lf|d]; simpl in *.
  - rewrite Hcol. simpl. rewrite Hin. simpl. by rewrite <- !app_assoc.
  - rewrite Hin. simpl. by rewrite <- !app_assoc.
Qed.

(** X6.  When [_save] is refused (the path resolution raises, the
    directory test raises, the path is a directory, or [partition_cols] is
    among the save options), the frame plays no part: the outcome is the
    same for every frame, and a lazy frame is not materialised. *)
Theorem save_refusal_ignores_frame s :
  (∃ e c, resolve_save s = (Raise e, c))
  ∨ (∃ p c, resolve_save s = (Return p, c)
            ∧ ((∃ e, path_is_dir X (save_path_of s p) (world (rt s)) = Raise e)
               ∨ path_is_dir X (save_path_of s p) (world (rt s)) = Return true
               ∨ has_key "partition_cols" (_save_args (self s)) = true)) →
  ∀ data,
    (∀ data', _save X data' s = _save X data s)
    ∧ ∃ evs, trace (rt (_save X data s).2) = trace (rt s) ++ evs
             ∧ existsb is_collect_event evs = false.
Proof.
  intros [(e & c & Hr) | (p & c & Hr & Hg)] data.
  - split.
    + intros data'. by rewrite !(save_resolution_raises X _ s e c Hr).
    + rewrite (save_resolution_raises X data s e c Hr). by eexists.
  - destruct (path_is_dir X (save_path_of s p) (world (rt s))) as [[]|e] eqn:Hd.
    + split.
      * intros data'. by rewrite !(save_directory X _ s p c Hr Hd).
      * rewrite (save_directory X data s p c Hr Hd). by eexists.
    + destruct Hg as [(e & He) | [Hg | Hpc]]; [discriminate | discriminate |].
      split.
      * intros data'. by rewrite !(save_partition X _ s p c Hr Hd Hpc).
      * rewrite (save_partition X data s p c Hr Hd Hpc). by eexists.
    + split.
      * intros data'. by rewrite !(save_is_dir_raises X _ s p c e Hr Hd).
      * rewrite (save_is_dir_raises X data s p c e Hr Hd). by eexists.
Qed.

(** X7.  Saving a lazy frame is saving what it collects to: the result, the
    storage and the version cache are those of saving the materialised
    frame, and so are the calls, but for the [collect] itself. *)
Theorem save_lazy_as_eager lf df s :
  collect X lf (world (rt s)) = Return df →
  (_save X (Lazy lf) s).1 = (_save X (Eager df) s).1
  ∧ world (rt (_save X (Lazy lf) s).2) = world (rt (_save X (Eager df) s).2)
  ∧ vcache (rt (_save X (Lazy lf) s).2) = vcache (rt (_save X (Eager df) s).2)
  ∧ List.filter (fun ev => negb (is_collect_event ev))
      (trace (rt (_save X (Lazy lf) s).2))
    = List.filter (fun ev => negb (is_collect_event ev))
        (trace (rt (_save X (Eager df) s).2)).
Proof.
  intros Hcol. save_steps.
  destruct (get_save_path X _ _ _ _ _) as [[p|e] c]; simpl; [| done].
  destruct (path_is_dir X _ _) as [[]|e0]; simpl; [done | | done].
  destruct (has_key "partition_cols" _); simpl; [done |].
  rewrite Hcol. simpl.
  destruct (py_in _ (DataFrame_attrs X)); simpl;
    [| by (rewrite !List.filter_app; simpl; rewrite ?app_nil_r)].
  destruct (DataFrame_write X _ df _) as [buf|e]; simpl;
    [| by (rewrite !List.filter_app; simpl; rewrite ?app_nil_r)].
  destruct (fs_open X _ _ _ _) as [[f|e] w1]; simpl;
    [| by (rewrite !List.filter_app; simpl; rewrite ?app_nil_r)].
  destruct (file_write X f buf w1) as [[[]|e] w2]; simpl.
  - destruct (fs_invalidate_cache X _ _ w2) as [ri w3]; simpl.
    destruct (file_close X f w3) as [[[]|e] w4]; simpl;
      by (rewrite !List.filter_app; simpl; rewrite ?app_nil_r).
  - destruct (file_close X f w2) as [[[]|e'] w4]; simpl;
      by (rewrite !List.filter_app; simpl; rewrite ?app_nil_r).
Qed.

(** X8.  When materialising the lazy frame raises, [_save] raises the same
    after its guards: nothing was serialised or opened and the storage is
    as it was. *)
Theorem save_collect_raises lf e s p c :
  resolve_save s = (Return p, c) →
  path_is_dir X (save_path_of s p) (world (rt s)) = Return false →
  has_key "partition_cols" (_save_args (self s)) = false →
  collect X lf (world (rt s)) = Raise e →
  _save X (Lazy lf) s
  = (Raise e,
     after s (world (rt s)) c
       [EvGetSavePath; EvIsDir (save_path_of s p); EvCollect lf]).
Proof.
  intros Hr Hd Hpc Hcol. save_steps. rewrite Hr. simpl. rewrite Hd, Hpc. simpl.
  rewrite Hcol. simpl. by rewrite <- !app_assoc.
Qed.

(** X9.  Once pathlib says the save path is no directory and the frame is
    serialised, [_save] opens the path through the handle in mode [wb]
    whatever the handle's store holds there; when the handle refuses to
    open it (a directory of a remote store, a read-only store), that
    exception goes to the caller, the adapter's directory error does not,
    and the bytes were serialised for nothing. *)
Theorem save_open_raises data s p c df buf e w1 :
  resolve_save s = (Return p, c) →
  path_is_dir X (save_path_of s p) (world (rt s)) = Return false →
  has_key "partition_cols" (_save_args (self s)) = false →
  collects_to data (world (rt s)) df →
  py_in ("write_" +:+ _file_format (self s)) (DataFrame_attrs X) = true →
  DataFrame_write X ("write_" +:+ _file_format (self s)) df (_save_args (self s))
  = Return buf →
  fs_open X (_fs (self s)) (save_path_of s p) "wb" (world (rt s)) = (Raise e, w1) →
  _save X data s
  = (Raise e,
     after s w1 c
       ([EvGetSavePath; EvIsDir (save_path_of s p)] ++ collect_events data
        ++ [EvWriteMethod ("write_" +:+ _file_format (self s)) df
              (_save_args (self s));
            EvOpen (_fs (self s)) (save_path_of s p) "wb"])).
Proof.
  intros Hr Hd Hpc Hcol Hin Hw Ho. save_steps. rewrite Hr. simpl.
  rewrite Hd, Hpc.
  destruct data as [lf|d]; simpl in *.
  - rewrite Hcol. simpl. rewrite Hin. simpl. rewrite Hw. simpl. rewrite Ho.
    simpl. by rewrite <- !app_assoc.
  - subst d. rewrite Hin. simpl. rewrite Hw. simpl. rewrite Ho. simpl.
    by rewrite <- !app_assoc.
Qed.

(** X10.  A file that was opened is closed, also when writing raises; then
    the cache is not invalidated, and the caller gets the exception of the
    write, or the one closing raised. *)
Theorem save_write_raises data s p c df buf f w1 e w2 :
  resolve_save s = (Return p, c) →
  path_is_dir X (save_path_of s p) (world (rt s)) = Return false →
  has_key "partition_cols" (_save_args (self s)) = false →
  collects_to data (world (rt s)) df →
  py_in ("write_" +:+ _file_format (self s)) (DataFrame_attrs X) = true →
  DataFrame_write X ("write_" +:+ _file_format (self s)) df (_save_args (self s))
  = Return buf →
  fs_open X (_fs (self s)) (save_path_of s p) "wb" (world (rt s)) = (Return f, w1) →
  file_write X f buf w1 = (Raise e, w2) →
  _save X data s
  = (match (file_close X f w2).1 with
     | Raise e' => Raise e'
     | Return _ => Raise e
     end,
     after s (file_close X f w2).2 c
       ([EvGetSavePath; EvIsDir (save_path_of s p)] ++ collect_events data
        ++ [EvWriteMethod ("write_" +:+ _file_format (self s)) df
              (_save_args (self s));
            EvOpen (_fs (self s)) (save_path_of s p) "wb";
            EvWrite f buf;
            EvClose f])).
Proof.
  intros Hr Hd Hpc Hcol Hin Hw Ho Hwr. save_steps. rewrite Hr. simpl.
  rewrite Hd, Hpc.
  destruct data as [lf|d]; simpl in *.
  - rewrite Hcol. simpl. rewrite Hin. simpl. rewrite Hw. simpl. rewrite Ho.
    simpl. rewrite Hwr. simpl.
    destruct (file_close X f w2) as [[[]|e'] w4]; simpl;
      by rewrite <- !app_assoc.
  - subst d. rewrite Hin. simpl. rewrite Hw. simpl. rewrite Ho. simpl.
    rewrite Hwr. simpl.
    destruct (file_close X f w2) as [[[]|e'] w4]; simpl;
      by rewrite <- !app_assoc.
Qed.

(** X11.  A save that returns has serialised the frame once with the save
    options, opened the resolved path once, in mode [wb], through the
    adapter's handle, and written once: exactly the serialised bytes. *)
Theorem save_writes_the_serialisation data s s' :
  _save X data s = (Return tt, s') →
  ∃ p c df buf f evs,
    resolve_save s = (Return p, c)
    ∧ collects_to data (world (rt s)) df
    ∧ DataFrame_write X ("write_" +:+ _file_format (self s)) df
        (_save_args (self s)) = Return buf
    ∧ trace (rt s') = trace (rt s) ++ evs
    ∧ List.filter is_write_event evs
      = [EvWriteMethod ("write_" +:+ _file_format (self s)) df
           (_save_args (self s));
         EvOpen (_fs (self s)) (save_path_of s p) "wb";
         EvWrite f buf].
Proof.
  intros H.
  destruct (save_success_inv X data s s' H)
    as (p & c & df & buf & f & w1 & w2 & w3 & w4
        & Hr & _ & _ & Hcol & _ & Hw & _ & _ & _ & _ & ->).
  exists p, c, df, buf, f. eexists.
  split; [exact Hr |]. split; [exact Hcol |]. split; [exact Hw |].
  split; [reflexivity |].
  destruct data; reflexivity.
Qed.

End SaveMore.

(** ** Load, existence check, release and description *)

Lemma existsb_Forall_false {A} (f : A → bool) (l : list A) :
  Forall (fun x => f x = false) l → existsb f l = false.
Proof.
  induction 1 as [|x l Hx _ IH]; simpl; [reflexivity |]. by rewrite Hx, IH.
Qed.

Lemma pop_absent (k : string) (d : Args) : has_key k d = false → pop k d = d.
Proof.
  unfold has_key, pop. intros H. apply delete_id.
  by destruct (d !! k).
Qed.

Ltac behave_reads :=
  repeat first
    [ match goal with
      | |- behaves _ _ (if ?b then _ else _) => destruct b
      | |- behaves _ _ (match (if ?b then _ else _) with _ => _ end) =>
          destruct b
      | |- behaves _ _ (match ?x with _ => _ end) => destruct x
      | |- forall _, _ => intro
      end
    | apply behaves_try | apply behaves_get_self
    | apply behaves_bind | apply behaves_inspect | apply behaves_resolve
    | apply behaves_ret | apply behaves_raise
    | reflexivity ].

Section ReadsMore.

Variable X : Externals.

Ltac run_reads :=
  unfold _load, _exists, _release, _describe, _invalidate_cache,
    _get_load_path, getattr_pl, try_except_DatasetError, bind, get_self,
    on_rt, resolve, inspect, perform, raise, ret, resolve_load, after,
    log_event, set_vcache, set_world in *; simpl in *.

(** X12.  Loading and checking existence only read: whatever they return or
    raise, the storage is as it was, and they have made no call that opens,
    writes, closes or invalidates. *)
Theorem load_and_exists_only_read (s : ObjState X) :
  (world (rt (_load X s).2) = world (rt s)
   ∧ ∃ evs, trace (rt (_load X s).2) = trace (rt s) ++ evs
            ∧ existsb is_mutating_event evs = false)
  ∧ (world (rt (_exists X s).2) = world (rt s)
     ∧ ∃ evs, trace (rt (_exists X s).2) = trace (rt s) ++ evs
              ∧ existsb is_mutating_event evs = false).
Proof.
  split; split.
  - run_reads.
    destruct (get_load_path X _ _ _ _ _) as [[p|e] c]; simpl; [| done].
    destruct (String.eqb _ "file"); simpl.
    + destruct (py_in _ (pl_attrs X)); simpl; done.
    + destruct (fsspec_filesystem X "s3" ∅ _); simpl; [| done].
      destruct (ds_dataset X _ _ _ _); simpl; done.
  - assert (Hb : behaves (self s) (fun ev => is_mutating_event ev = false)
                   (_load X)).
    { unfold _load, _get_load_path, getattr_pl. behave_reads. }
    destruct (Hb s eq_refl) as (_ & evs & Htr & Hall).
    exists evs. split; [exact Htr | by apply existsb_Forall_false].
  - run_reads.
    destruct (get_load_path X _ _ _ _ _) as [[p|[msg|cls]] c]; simpl; done.
  - assert (Hb : behaves (self s) (fun ev => is_mutating_event ev = false)
                   (_exists X)).
    { unfold _exists, _get_load_path. behave_reads. }
    destruct (Hb s eq_refl) as (_ & evs & Htr & Hall).
    exists evs. split; [exact Htr | by apply existsb_Forall_false].
Qed.

(** X13.  How [_load] fails before the engine is reached: an exception of
    the path resolution, the framework's dataset error included, goes to
    the caller (where [_exists] would answer false); and on the local
    protocol an engine without [scan_<format>] makes [_load] raise a
    [TypeError], not a dataset error.  No engine call is made in either
    case. *)
Theorem load_raises_before_the_engine (s : ObjState X) :
  (∀ e c, resolve_load s = (Raise e, c) →
          _load X s = (Raise e, after s (world (rt s)) c [EvGetLoadPath]))
  ∧ (∀ p c, resolve_load s = (Return p, c) →
            _protocol (self s) = "file" →
            py_in ("scan_" +:+ _file_format (self s)) (pl_attrs X) = false →
            _load X s
            = (Raise (PyError "TypeError"),
               after s (world (rt s)) c [EvGetLoadPath])).
Proof.
  split.
  - intros e c H. run_reads. by rewrite H.
  - intros p c H Hp Hin. run_reads. by rewrite H, Hp, Hin.
Qed.

(** X14.  [_release] first has the framework release its version cache,
    then invalidates the handle's cache for the base path (the unversioned
    one, also on a versioned adapter).  It calls nothing else, raises only
    what the invalidation raises, and the version cache is released even
    then. *)
Theorem release_run (s : ObjState X) :
  _release X s
  = ((fs_invalidate_cache X (_fs (self s)) (base_path_of s) (world (rt s))).1,
     after s
       (fs_invalidate_cache X (_fs (self s)) (base_path_of s) (world (rt s))).2
       (super_release X (vcache (rt s)))
       [EvSuperRelease; EvInvalidateCache (_fs (self s)) (base_path_of s)]).
Proof.
  run_reads. unfold base_path_of.
  destruct (fs_invalidate_cache X _ _ _) as [ri w]. simpl.
  by rewrite <- app_assoc.
Qed.

(** X15.  What [_describe] reports is fixed by the construction arguments:
    the path and protocol the framework parsed out of [filepath], the
    supplied load and save options without [storage_options], and the
    version.  Credentials, filesystem arguments and metadata are not in it,
    and no sequence of operations changes it. *)
Theorem describe_constructed (a : InitArgs) (r r' : Runtime X)
    (ds : PolarsDataset X) (s : ObjState X) :
  __init__ X a r = (Return ds, r') →
  self s = ds →
  ∃ protocol path,
    get_protocol_and_path X (filepath a) (version a) = Return (protocol, path)
    ∧ ∀ ops,
        _describe X (run_ops ops s)
        = (Return [("filepath", DvPath (PurePosixPath X path));
                   ("protocol", DvStr protocol);
                   ("load_args",
                    DvArgs (pop "storage_options" (merged_load_args a)));
                   ("save_args",
                    DvArgs (pop "storage_options" (merged_save_args a)));
                   ("version", DvVersion (version a))],
           run_ops ops s).
Proof.
  intros H Hs.
  destruct (init_inv X a r r' ds H)
    as (path & _ & _ & Hpp & _ & Hfp & Hv & Hl & Hsa & _).
  exists (_protocol ds), path. split; [exact Hpp |].
  intros ops.
  assert (Hself : self (run_ops ops s) = ds).
  { rewrite <- Hs. clear. unfold run_ops.
    revert s. induction ops as [|op ops IH]; intros s; simpl; [done |].
    by rewrite IH, run_op_self. }
  assert (Hl' : _load_args ds = pop "storage_options" (merged_load_args a)).
  { rewrite Hl. unfold drops_storage_options.
    destruct (has_key "storage_options" (merged_save_args a)); simpl; [done |].
    destruct (has_key "storage_options" (merged_load_args a)) eqn:Hk;
      [done | by rewrite pop_absent]. }
  assert (Hs' : _save_args ds = pop "storage_options" (merged_save_args a)).
  { rewrite Hsa. unfold drops_storage_options.
    destruct (has_key "storage_options" (merged_save_args a)) eqn:Hk; simpl;
      [done |].
    destruct (has_key "storage_options" (merged_load_args a));
      [done | by rewrite pop_absent]. }
  run_reads. by rewrite Hself, Hfp, Hv, Hl', Hs'.
Qed.

(** X16.  Saving does not read the load options and loading does not read
    the save options; the existence check and release read neither.  With
    the other options replaced, the result and the runtime left are the
    same. *)
Theorem options_are_separate (la sa : Args) (data : PolarsFrame X) (s : ObjState X) :
  ((_save X data (with_load_args la s)).1 = (_save X data s).1
   ∧ rt (_save X data (with_load_args la s)).2 = rt (_save X data s).2)
  ∧ ((_load X (with_save_args sa s)).1 = (_load X s).1
     ∧ rt (_load X (with_save_args sa s)).2 = rt (_load X s).2)
  ∧ ((_exists X (with_load_args la (with_save_args sa s))).1 = (_exists X s).1
     ∧ rt (_exists X (with_load_args la (with_save_args sa s))).2
       = rt (_exists X s).2)
  ∧ ((_release X (with_load_args la (with_save_args sa s))).1 = (_release X s).1
     ∧ rt (_release X (with_load_args la (with_save_args sa s))).2
       = rt (_release X s).2).
Proof.
  split; [| split; [| split]].
  - unfold _save, _get_save_path, _invalidate_cache, with_open, bind, get_self,
      on_rt, resolve, inspect, perform, raise, ret, getattr_DataFrame,
      log_event, set_vcache, set_world; simpl.
    destruct (get_save_path X _ _ _ _ _) as [[p|e] c]; simpl; [| done].
    destruct (path_is_dir X _ _) as [[]|e0]; simpl; [done | | done].
    destruct (has_key "partition_cols" _); simpl; [done |].
    destruct data as [lf|df]; simpl;
      [destruct (collect X lf (world (rt s))) as [df|e]; simpl; [| done] |];
      (destruct (py_in _ (DataFrame_attrs X)); simpl; [| done]);
      (destruct (DataFrame_write X _ df _) as [buf|e]; simpl; [| done]);
      (destruct (fs_open X _ _ _ _) as [[f|e] w1]; simpl; [| done]);
      (destruct (file_write X f buf w1) as [[[]|e] w2]; simpl;
         [| by destruct (file_close X f w2) as [[[]|e'] w4]]);
      (destruct (fs_invalidate_cache X _ _ w2) as [ri w3]; simpl);
      by destruct (file_close X f w3) as [[[]|e] w4].
  - run_reads.
    destruct (get_load_path X _ _ _ _ _) as [[p|e] c]; simpl; [| done].
    destruct (String.eqb _ "file"); simpl.
    + destruct (py_in _ (pl_attrs X)); simpl; done.
    + destruct (fsspec_filesystem X "s3" ∅ _); simpl; [| done].
      destruct (ds_dataset X _ _ _ _); simpl; done.
  - run_reads.
    destruct (get_load_path X _ _ _ _ _) as [[p|[msg|cls]] c]; simpl; done.
  - run_reads. by destruct (fs_invalidate_cache X _ _ _).
Qed.

End ReadsMore.

(** ** The deprecated alias *)

(** X17.  As the module stands, its [__getattr__] never returns a class and
    never issues the deprecation warning: for the deprecated name
    [PolarsDataSet] the call of [warnings.warn] raises a [NameError],
    because the module does not import [warnings]; for every other name it
    raises an [AttributeError]. *)
Theorem deprecated_alias_is_never_returned (name : string) (issued : list string) :
  __getattr__ name issued
  = (Raise (PyError (if String.eqb name "PolarsDataSet"
                     then "NameError" else "AttributeError")),
     issued).
Proof.
  unfold __getattr__. simpl.
  destruct (String.eqb name "PolarsDataSet"); reflexivity.
Qed.

(** ** Save, then check existence: the reference model *)

Section ExistsAfterSave.

Variable C : Codec.

(** A save in the reference model returns, leaves the serialised bytes at
    the resolved path, and no cached answer about that path. *)
Lemma ref_save_returns a r r' ds s p c (df : DataFrame (ref C)) content :
  __init__ (ref C) a r = (Return ds, r') →
  self s = ds →
  _protocol ds ∉ HTTP_PROTOCOLS →
  resolve_save s = (Return p, c) →
  is_dir (store_of (world (rt s)) "file") p = false →
  is_dir (store_of (world (rt s)) (_protocol ds)) p = false →
  has_key "partition_cols" (_save_args ds) = false →
  encode C (_file_format ds) df (_save_args ds) = Return content →
  ∃ s1, _save (ref C) (Eager df) s = (Return tt, s1)
        ∧ self s1 = ds
        ∧ vcache (rt s1) = c
        ∧ files (store_of (world (rt s1)) (_protocol ds)) !! p = Some content
        ∧ listings (store_of (world (rt s1)) (_protocol ds)) !! p = None.
Proof.
  intros Hinit Hself Hhttp Hr Hdl Hdr Hpc Henc.
  destruct (ref_init_facts C a r r' ds Hinit) as [Hfsp Hfmt].
  apply py_in_not_elem_of in Hhttp. subst ds.
  assert (Hsp : save_path_of s p = p).
  { unfold save_path_of. simpl. unfold ref_get_filepath_str. by rewrite Hhttp. }
  assert (Hbp : base_path_of s = _filepath (self s)).
  { unfold base_path_of. simpl. unfold ref_get_filepath_str. by rewrite Hhttp. }
  destruct (ref_write_sequence (_fs (self s)) p (_filepath (self s)) content
              (world (rt s)))
    as (w1 & w2 & w3 & w4 & Ho & Hw & Hi & Hc & Hfile & Hcache);
    [by rewrite Hfsp | by rewrite Hfsp |].
  assert (Hwf : write_format ("write_" +:+ _file_format (self s))
                = _file_format (self s))
    by (destruct Hfmt as [-> | ->]; reflexivity).
  assert (Hwin : py_in ("write_" +:+ _file_format (self s)) ref_DataFrame_attrs
                 = true)
    by (destruct Hfmt as [-> | ->]; reflexivity).
  eexists. split; [| split; [| split; [| split]]].
  - eapply (save_returns (ref C) df s p c content
              {| fo_fs := _fs (self s); fo_path := p |} w1 w2 w3 w4); auto.
    + rewrite Hsp. simpl. unfold ref_path_is_dir. by rewrite Hdl.
    + simpl. unfold ref_DataFrame_write. rewrite Hwf. exact Henc.
    + rewrite Hsp. exact Ho.
    + rewrite Hbp. exact Hi.
  - reflexivity.
  - reflexivity.
  - simpl. rewrite <- Hfsp. exact Hfile.
  - simpl. rewrite <- Hfsp, Hcache. apply invalidated_lookup.
    apply (ref_save_path_under _ _ _ _ _ _ _ Hr).
Qed.

(** X18.  In the reference model, for a constructed adapter on a writable
    protocol, with or without a version, whose save path resolves to a path
    that is no directory: before the save the existence check answers false
    when no version is found to load, and when the load path is that path
    and nothing is stored or cached there; a save that the engine can
    serialise returns, and from then on the existence check answers true
    whenever the load path resolves to the saved path. *)
Theorem save_then_exists a r r' ds s p c (df : DataFrame (ref C)) content :
  __init__ (ref C) a r = (Return ds, r') →
  self s = ds →
  _protocol ds ∉ HTTP_PROTOCOLS →
  resolve_save s = (Return p, c) →
  is_dir (store_of (world (rt s)) "file") p = false →
  is_dir (store_of (world (rt s)) (_protocol ds)) p = false →
  has_key "partition_cols" (_save_args ds) = false →
  encode C (_file_format ds) df (_save_args ds) = Return content →
  (∀ msg c0, resolve_load s = (Raise (DatasetError msg), c0) →
             (_exists (ref C) s).1 = Return false)
  ∧ (∀ c0, resolve_load s = (Return p, c0) →
           is_file (store_of (world (rt s)) (_protocol ds)) p = false →
           listings (store_of (world (rt s)) (_protocol ds)) !! p = None →
           (_exists (ref C) s).1 = Return false)
  ∧ ∃ s1, _save (ref C) (Eager df) s = (Return tt, s1)
          ∧ ∀ c1, resolve_load s1 = (Return p, c1) →
                  (_exists (ref C) s1).1 = Return true.
Proof.
  intros Hinit Hself Hhttp Hr Hdl Hdr Hpc Henc.
  destruct (ref_init_facts C a r r' ds Hinit) as [Hfsp _].
  pose proof Hhttp as Hh. apply py_in_not_elem_of in Hh.
  split; [| split].
  - intros msg c0 Hrl.
    apply (exists_not_found (ref C) s msg c0 Hrl).
  - intros c0 Hrl Hnf Hnc.
    rewrite (ref_exists_at C ds s p c0 Hfsp Hh Hself Hrl).
    unfold handle_exists, storage_exists. by rewrite Hnc, Hnf, Hdr.
  - destruct (ref_save_returns a r r' ds s p c df content
                Hinit Hself Hhttp Hr Hdl Hdr Hpc Henc)
      as (s1 & Hs1 & Hself1 & _ & Hfile & Hnone).
    exists s1. split; [exact Hs1 |].
    intros c1 Hrl. rewrite (ref_exists_at C ds s1 p c1 Hfsp Hh Hself1 Hrl).
    unfold handle_exists, storage_exists, is_file. by rewrite Hnone, Hfile.
Qed.

End ExistsAfterSave.

(** * Further concrete runs *)

Lemma init_storage_options_witness :
  let ds := adapter_with tag_codec
              {["auto_mkdir" := PBool true; "token" := PStr "t"]}
              "file" "test.csv" "csv" None ∅ ∅ in
  __init__ (ref tag_codec) init_args_with_credentials (start tag_codec empty_world)
  = (Return ds,
     (__init__ (ref tag_codec) init_args_with_credentials
        (start tag_codec empty_world)).2)
  ∧ _storage_options ds !! "auto_mkdir" = Some (PBool true)
  ∧ _storage_options ds !! "token" = Some (PStr "t").
Proof.
  intros ds.
  assert (Hinit : __init__ (ref tag_codec) init_args_with_credentials
                    (start tag_codec empty_world)
                  = (Return ds,
                     (__init__ (ref tag_codec) init_args_with_credentials
                        (start tag_codec empty_world)).2))
    by reflexivity.
  destruct (init_storage_options (ref tag_codec) _ _ _ _ Hinit) as [Hk _].
  split; [exact Hinit |]. split.
  - rewrite (Hk "auto_mkdir"). reflexivity.
  - rewrite (Hk "token"). reflexivity.
Defined.

Lemma init_warns_exactly_when_dropping_witness :
  let a := init_args "test.csv" "csv" in
  let ds := adapter tag_codec "file" "test.csv" "csv" None ∅ ∅ in
  let r := start tag_codec empty_world in
  ∃ evs,
    trace (__init__ (ref tag_codec) a r).2 = trace r ++ evs
    ∧ existsb is_warning_event evs = drops_storage_options a
    ∧ (drops_storage_options a = false →
       evs = [EvGetProtocolAndPath (filepath a) (version a);
              EvFilesystem (_protocol ds) (_storage_options ds);
              EvSuperInit (_filepath ds) (version a)]
       ∧ _load_args ds = merged_load_args a
       ∧ _save_args ds = merged_save_args a).
Proof.
  intros a ds r.
  apply (init_warns_exactly_when_dropping (ref tag_codec) a r
           (__init__ (ref tag_codec) a r).2 ds).
  reflexivity.
Defined.

Lemma init_case_insensitive_witness :
  let r := start tag_codec empty_world in
  __init__ (ref tag_codec) (with_file_format "Parquet" (init_args "t.pq" "PARQUET")) r
  = __init__ (ref tag_codec) (init_args "t.pq" "PARQUET") r
  ∧ __init__ (ref tag_codec)
      (with_file_format (lower "Parquet") (init_args "t.pq" "PARQUET")) r
    = __init__ (ref tag_codec) (init_args "t.pq" "PARQUET") r.
Proof.
  intros r.
  exact (init_case_insensitive (ref tag_codec) (init_args "t.pq" "PARQUET")
           "Parquet" r eq_refl).
Defined.

Lemma save_without_write_method_witness :
  let s := state_of tag_codec (adapter tag_codec "file" "test.xml" "xml" None ∅ ∅)
             empty_world in
  (_save (ref tag_codec) (Eager two_rows) s).1
  = Raise (DatasetError (write_method_error "xml"))
  ∧ trace (rt (_save (ref tag_codec) (Eager two_rows) s).2)
    = [EvGetSavePath; EvIsDir "test.xml"].
Proof.
  intros s.
  rewrite (save_without_write_method (ref tag_codec) (Eager two_rows) s
             "test.xml" (None, None) two_rows
             eq_refl eq_refl eq_refl eq_refl eq_refl).
  split; reflexivity.
Defined.

Lemma save_refusal_ignores_frame_witness :
  let s := state_of tag_codec
             (adapter tag_codec "file" "test.csv" "csv" None ∅
                {["partition_cols" := PList [PStr "a"]]})
             empty_world in
  _save (ref tag_codec)
    (Lazy (X := ref tag_codec) (LScan tag_codec "scan_csv" "missing.csv" ∅)) s
  = _save (ref tag_codec) (Eager two_rows) s.
Proof.
  intros s.
  apply (proj1 (save_refusal_ignores_frame (ref tag_codec) s
                  (or_intror
                     (ex_intro _ "test.csv"
                        (ex_intro _ (None, None)
                           (conj eq_refl (or_intror (or_intror eq_refl))))))
                  (Eager two_rows))).
Defined.

Lemma save_lazy_as_eager_witness :
  let s := state_of tag_codec (adapter tag_codec "file" "test.csv" "csv" None ∅ ∅)
             empty_world in
  let lf := LFrame tag_codec two_rows : LazyFrame (ref tag_codec) in
  (_save (ref tag_codec) (Lazy lf) s).1
  = (_save (ref tag_codec) (Eager two_rows) s).1
  ∧ world (rt (_save (ref tag_codec) (Lazy lf) s).2)
    = world (rt (_save (ref tag_codec) (Eager two_rows) s).2)
  ∧ vcache (rt (_save (ref tag_codec) (Lazy lf) s).2)
    = vcache (rt (_save (ref tag_codec) (Eager two_rows) s).2)
  ∧ List.filter (fun ev => negb (is_collect_event ev))
      (trace (rt (_save (ref tag_codec) (Lazy lf) s).2))
    = List.filter (fun ev => negb (is_collect_event ev))
        (trace (rt (_save (ref tag_codec) (Eager two_rows) s).2)).
Proof.
  intros s lf.
  exact (save_lazy_as_eager (ref tag_codec) lf two_rows s eq_refl).
Defined.

Lemma save_collect_raises_witness :
  let s := state_of tag_codec (adapter tag_codec "file" "test.csv" "csv" None ∅ ∅)
             empty_world in
  let lf := LScan tag_codec "scan_csv" "missing.csv" ∅ : LazyFrame (ref tag_codec) in
  _save (ref tag_codec) (Lazy lf) s
  = (Raise (PyError "FileNotFoundError"),
     after s (world (rt s)) (None, None)
       [EvGetSavePath; EvIsDir (save_path_of s "test.csv"); EvCollect lf]).
Proof.
  intros s lf.
  exact (save_collect_raises (ref tag_codec) lf (PyError "FileNotFoundError") s
           "test.csv" (None, None) eq_refl eq_refl eq_refl eq_refl).
Defined.

Lemma save_open_raises_witness :
  let s := state_of tag_codec
             (adapter tag_codec "s3" "bucket/out" "parquet" None ∅ ∅)
             world_with_remote_dir in
  path_is_dir (ref tag_codec) "bucket/out" world_with_remote_dir = Return false
  ∧ is_dir (store_of world_with_remote_dir "s3") "bucket/out" = true
  ∧ (_save (ref tag_codec) (Eager two_rows) s).1
    = Raise (PyError "IsADirectoryError")
  ∧ existsb is_write_event
      (trace (rt (_save (ref tag_codec) (Eager two_rows) s).2)) = true.
Proof.
  intros s.
  rewrite (save_open_raises (ref tag_codec) (Eager two_rows) s "bucket/out"
             (None, None) two_rows [Byte.x50; Byte.x01; Byte.x02]
             (PyError "IsADirectoryError") world_with_remote_dir
             eq_refl eq_refl eq_refl eq_refl eq_refl eq_refl eq_refl).
  repeat split.
Defined.

Lemma save_write_raises_witness :
  (_save full_disk (Eager (X := full_disk) two_rows) full_disk_state).1
  = Raise (PyError "OSError")
  ∧ existsb (invalidates_path "test.csv")
      (trace (rt (_save full_disk (Eager (X := full_disk) two_rows)
                    full_disk_state).2)) = false
  ∧ last (trace (rt (_save full_disk (Eager (X := full_disk) two_rows)
                       full_disk_state).2))
    = Some (EvClose ({| fo_fs := {| fs_protocol := "file"; fs_kwargs := ∅ |};
                        fo_path := "test.csv" |} : FileObj full_disk)).
Proof.
  rewrite (save_write_raises full_disk (Eager (X := full_disk) two_rows)
             full_disk_state "test.csv" (None, None) two_rows
             [Byte.x63; Byte.x01; Byte.x02]
             {| fo_fs := {| fs_protocol := "file"; fs_kwargs := ∅ |};
                fo_path := "test.csv" |}
             (ref_fs_open {| fs_protocol := "file"; fs_kwargs := ∅ |}
                "test.csv" "wb" empty_world).2
             (PyError "OSError")
             (ref_fs_open {| fs_protocol := "file"; fs_kwargs := ∅ |}
                "test.csv" "wb" empty_world).2
             eq_refl eq_refl eq_refl eq_refl eq_refl eq_refl eq_refl eq_refl).
  repeat split.
Defined.

Lemma save_writes_the_serialisation_witness :
  let s := state_of tag_codec (adapter tag_codec "file" "test.csv" "csv" None ∅ ∅)
             empty_world in
  ∃ p c df buf f evs,
    resolve_save s = (Return p, c)
    ∧ collects_to (Eager two_rows) (world (rt s)) df
    ∧ DataFrame_write (ref tag_codec) ("write_" +:+ _file_format (self s)) df
        (_save_args (self s)) = Return buf
    ∧ trace (rt (_save (ref tag_codec) (Eager two_rows) s).2) = trace (rt s) ++ evs
    ∧ List.filter is_write_event evs
      = [EvWriteMethod ("write_" +:+ _file_format (self s)) df
           (_save_args (self s));
         EvOpen (_fs (self s)) (save_path_of s p) "wb";
         EvWrite f buf].
Proof.
  intros s.
  apply (save_writes_the_serialisation (ref tag_codec) (Eager two_rows) s).
  reflexivity.
Defined.

Lemma describe_constructed_witness :
  let a := init_args_with_storage_options in
  let ds := adapter tag_codec "file" "test.csv" "csv" None {["sep" := PStr ","]} ∅ in
  ∃ protocol path,
    get_protocol_and_path (ref tag_codec) (filepath a) (version a)
    = Return (protocol, path)
    ∧ ∀ ops,
        _describe (ref tag_codec) (run_ops ops (state_of tag_codec ds empty_world))
        = (Return [("filepath", DvPath (PurePosixPath (ref tag_codec) path));
                   ("protocol", DvStr protocol);
                   ("load_args",
                    DvArgs (pop "storage_options" (merged_load_args a)));
                   ("save_args",
                    DvArgs (pop "storage_options" (merged_save_args a)));
                   ("version", DvVersion (version a))],
           run_ops ops (state_of tag_codec ds empty_world)).
Proof.
  intros a ds.
  apply (describe_constructed (ref tag_codec) a (start tag_codec empty_world)
           (__init__ (ref tag_codec) a (start tag_codec empty_world)).2 ds
           (state_of tag_codec ds empty_world)).
  - reflexivity.
  - reflexivity.
Defined.

Lemma save_then_exists_witness :
  let plain := state_of tag_codec
                 (adapter tag_codec "file" "test.csv" "csv" None ∅ ∅)
                 empty_world in
  let pinned := state_of tag_codec
                  (adapter tag_codec "s3" "bucket/cars.parquet" "parquet"
                     (Some {| load := Some "v1"; save := Some "v1" |}) ∅ ∅)
                  empty_world in
  let generated := state_of tag_codec
                     (adapter tag_codec "file" "data/cars.csv" "csv"
                        (Some {| load := None; save := None |}) ∅ ∅)
                     empty_world in
  ((_exists (ref tag_codec) plain).1 = Return false
   ∧ (_exists (ref tag_codec)
        (_save (ref tag_codec) (Eager two_rows) plain).2).1 = Return true)
  ∧ ((_exists (ref tag_codec) pinned).1 = Return false
     ∧ (_exists (ref tag_codec)
          (_save (ref tag_codec) (Eager two_rows) pinned).2).1 = Return true)
  ∧ ((_exists (ref tag_codec) generated).1 = Return false
     ∧ (_exists (ref tag_codec)
          (_save (ref tag_codec) (Eager two_rows) generated).2).1 = Return true).
Proof.
  intros plain pinned generated. split; [| split].
  - destruct (save_then_exists tag_codec
                (init_args "test.csv" "csv") (start tag_codec empty_world)
                (__init__ (ref tag_codec) (init_args "test.csv" "csv")
                   (start tag_codec empty_world)).2
                (adapter tag_codec "file" "test.csv" "csv" None ∅ ∅)
                plain "test.csv" (None, None) two_rows
                [Byte.x63; Byte.x01; Byte.x02]
                eq_refl eq_refl
                ltac:(apply py_in_not_elem_of; reflexivity)
                eq_refl eq_refl eq_refl eq_refl eq_refl)
      as (_ & Hbefore & s1 & Hs1 & Hafter).
    split; [apply (Hbefore (None, None)); reflexivity |].
    pose proof (f_equal snd Hs1
                : (_save (ref tag_codec) (Eager two_rows) plain).2 = s1) as E.
    rewrite E. apply (Hafter (None, None)). rewrite <- E. reflexivity.
  - destruct (save_then_exists tag_codec
                (versioned_init_args "s3://bucket/cars.parquet" "parquet"
                   {| load := Some "v1"; save := Some "v1" |})
                (start tag_codec empty_world)
                (__init__ (ref tag_codec)
                   (versioned_init_args "s3://bucket/cars.parquet" "parquet"
                      {| load := Some "v1"; save := Some "v1" |})
                   (start tag_codec empty_world)).2
                (adapter tag_codec "s3" "bucket/cars.parquet" "parquet"
                   (Some {| load := Some "v1"; save := Some "v1" |}) ∅ ∅)
                pinned "bucket/cars.parquet/v1/cars.parquet" (None, Some "v1")
                two_rows [Byte.x50; Byte.x01; Byte.x02]
                eq_refl eq_refl
                ltac:(apply py_in_not_elem_of; reflexivity)
                eq_refl eq_refl eq_refl eq_refl eq_refl)
      as (_ & Hbefore & s1 & Hs1 & Hafter).
    split; [apply (Hbefore (Some "v1", None)); reflexivity |].
    pose proof (f_equal snd Hs1
                : (_save (ref tag_codec) (Eager two_rows) pinned).2 = s1) as E.
    rewrite E. apply (Hafter (Some "v1", Some "v1")). rewrite <- E.
    reflexivity.
  - destruct (save_then_exists tag_codec
                (versioned_init_args "data/cars.csv" "csv"
                   {| load := None; save := None |})
                (start tag_codec empty_world)
                (__init__ (ref tag_codec)
                   (versioned_init_args "data/cars.csv" "csv"
                      {| load := None; save := None |})
                   (start tag_codec empty_world)).2
                (adapter tag_codec "file" "data/cars.csv" "csv"
                   (Some {| load := None; save := None |}) ∅ ∅)
                generated "data/cars.csv/2026-01-01T00.00.00.000Z/cars.csv"
                (None, Some "2026-01-01T00.00.00.000Z")
                two_rows [Byte.x63; Byte.x01; Byte.x02]
                eq_refl eq_refl
                ltac:(apply py_in_not_elem_of; reflexivity)
                eq_refl eq_refl eq_refl eq_refl eq_refl)
      as (Hraise & _ & s1 & Hs1 & Hafter).
    split;
      [apply (Hraise "Did not find any versions for data/cars.csv" (None, None));
       reflexivity |].
    pose proof (f_equal snd Hs1
                : (_save (ref tag_codec) (Eager two_rows) generated).2 = s1) as E.
    rewrite E.
    apply (Hafter (Some "2026-01-01T00.00.00.000Z",
                   Some "2026-01-01T00.00.00.000Z")).
    rewrite <- E. reflexivity.
Defined.

Lemma load_raises_before_the_engine_witness :
  let versioned := state_of tag_codec
                     (adapter tag_codec "file" "data/cars.csv" "csv"
                        (Some {| load := None; save := None |}) ∅ ∅)
                     empty_world in
  let xml := state_of tag_codec
               (adapter tag_codec "file" "test.xml" "xml" None ∅ ∅)
               empty_world in
  (_load (ref tag_codec) versioned).1
  = Raise (DatasetError "Did not find any versions for data/cars.csv")
  ∧ (_load (ref tag_codec) xml).1 = Raise (PyError "TypeError").
Proof.
  intros versioned xml. split.
  - rewrite (proj1 (load_raises_before_the_engine (ref tag_codec) versioned)
               (DatasetError "Did not find any versions for data/cars.csv")
               (None, None) eq_refl).
    reflexivity.
  - rewrite (proj2 (load_raises_before_the_engine (ref tag_codec) xml)
               "test.xml" (None, None) eq_refl eq_refl eq_refl).
    reflexivity.
Defined.
